(** * FimPay screens: a shallow embedding of the screen handlers

    The repository is the screen layer of a React Native application: a chat
    screen ([app/(tabs)/ai.tsx]), an email verification screen, a sign-in
    screen and a profile screen.  Every handler is an event handler over the
    component state kept by [useState]; the outside world (the HTTP endpoint,
    the identity provider, the clock) is an input of the handler and what the
    handler does to the outside world is the list of effects it returns. *)

From Stdlib Require Import List ZArith NArith Bool Lia String Ascii.
From Stdlib Require Import DecimalString DecimalZ.
From Stdlib Require Import Floats.SpecFloat.
Import ListNotations.

Set Implicit Arguments.
Set Warnings "-register-all".

(* ================================================================== *)
(** * Part I: definitions *)
(* ================================================================== *)

(** ** JavaScript values as the handlers use them *)

Module JS.

(** A JavaScript string is a sequence of UTF-16 code units. *)
Definition jsstring := list N.

(** A string literal of the source whose characters are all below U+0100. *)
Definition lit (s : string) : jsstring :=
  map N_of_ascii (list_ascii_of_string s).

Fixpoint eqb (a b : jsstring) : bool :=
  match a, b with
  | [], [] => true
  | x :: a', y :: b' => N.eqb x y && eqb a' b'
  | _, _ => false
  end.

(** [WhiteSpace] and [LineTerminator] of ECMAScript, what [trim] strips
    and what [\s] matches. *)
Definition isWhiteSpace (c : N) : bool :=
  existsb (N.eqb c)
    [9; 10; 11; 12; 13; 32; 160; 5760; 8232; 8233; 8239; 8287; 12288; 65279]%N
  || (8192 <=? c)%N && (c <=? 8202)%N.

Fixpoint trimStart (s : jsstring) : jsstring :=
  match s with
  | [] => []
  | c :: s' => if isWhiteSpace c then trimStart s' else s
  end.

Definition trimEnd (s : jsstring) : jsstring := rev (trimStart (rev s)).

(** [String.prototype.trim] *)
Definition trim (s : jsstring) : jsstring := trimEnd (trimStart s).

Fixpoint startsWith (s p : jsstring) : bool :=
  match p, s with
  | [], _ => true
  | _ :: _, [] => false
  | y :: p', x :: s' => N.eqb x y && startsWith s' p'
  end.

(** [String.prototype.includes] *)
Fixpoint includes (s sub : jsstring) : bool :=
  startsWith s sub ||
  match s with
  | [] => false
  | _ :: s' => includes s' sub
  end.

(** [Number.prototype.toString] on an integer (the instants of the clock
    and the HTTP statuses are integers far below 2^53). *)
Definition toString (z : Z) : jsstring :=
  lit (NilZero.string_of_int (Z.to_int z)).

(** The values [JSON.parse] produces, and [undefined], which reading a
    missing property produces. *)
Inductive value : Type :=
| Undefined
| Null
| Bool (b : bool)
| Num (x : spec_float)
| Str (s : jsstring)
| Arr (items : list value)
| Obj (fields : list (jsstring * value)).

(** [ToBoolean] *)
Definition truthy (v : value) : bool :=
  match v with
  | Undefined | Null => false
  | Bool b => b
  | Num (S754_zero _) | Num S754_nan => false
  | Num _ => true
  | Str [] => false
  | Str _ => true
  | Arr _ | Obj _ => true
  end.

(** What a [try] block, or an awaited promise, comes to. *)
Inductive completion (E A : Type) : Type :=
| Return (a : A)
| Throw (e : E).
Arguments Return {E A} a.
Arguments Throw {E A} e.

Definition bind {E A B} (c : completion E A) (k : A -> completion E B)
  : completion E B :=
  match c with
  | Return a => k a
  | Throw e => Throw e
  end.

Fixpoint lookup (k : jsstring) (fields : list (jsstring * value)) : value :=
  match fields with
  | [] => Undefined
  | (k', v) :: rest => if eqb k k' then v else lookup k rest
  end.

(** [v.name] for a property name that no built-in prototype defines (the
    screens read [reply], [message], [output], [choices], [text],
    [content], [response]): an own property of an object, [undefined] on
    every other value but [null] and [undefined], where the read throws
    a [TypeError].  [None] stands for that throw. *)
Definition prop (v : value) (name : jsstring) : option value :=
  match v with
  | Undefined | Null => None
  | Obj fields => Some (lookup name fields)
  | _ => Some Undefined
  end.

(** [v[0]] *)
Definition index0 (v : value) : option value :=
  match v with
  | Undefined | Null => None
  | Arr items => Some (hd Undefined items)
  | Str (c :: _) => Some (Str [c])
  | Obj fields => Some (lookup (lit "0") fields)
  | _ => Some Undefined
  end.

End JS.

Notation "x <- c ;; k" := (JS.bind c (fun x => k))
(at level 61, c at next level, right associativity).

(** ** The chat screen, [app/(tabs)/ai.tsx] *)

Module Chat.
Import JS.
Local Open Scope Z_scope.

(** [interface Message].  [text] is declared a string; the reply taken from
    the parsed response is whatever value the response carries, so the
    field holds a value.  [timestamp] is the instant of [new Date()] in
    milliseconds. *)
Record Message : Type := mkMessage {
  id : jsstring;
  text : value;
  isUser : bool;
  timestamp : Z
}.

(** A value caught by [catch (err: any)]: an object whose [name] and
    [message] are strings when present. *)
Record error : Type := mkError {
  name : option jsstring;
  message : option jsstring
}.

(** [new Error(msg)] *)
Definition Error (msg : jsstring) : error :=
  {| name := Some (lit "Error"); message := Some msg |}.

Definition result := completion error.

(** The [Response] of [fetch]: the two fields and the two body readers the
    screen uses, each reader with what awaiting it comes to. *)
Record Response : Type := mkResponse {
  ok : bool;
  status : Z;
  response_text : result jsstring;
  response_json : result value
}.

(** The body handed to [JSON.stringify]; [timestamp] is the instant that
    [toISOString] renders. *)
Record RequestBody : Type := mkBody {
  body_prompt : jsstring;
  body_user : jsstring;
  body_timestamp : Z
}.

Record Request : Type := mkRequest {
  url : jsstring;
  method : jsstring;
  headers : list (jsstring * jsstring);
  body : RequestBody;
  timeout : Z
}.

(** What the handlers cannot decide: the network and the JavaScript engine.
    [fetch] is what awaiting the platform's [fetch] comes to for a request
    and its abort timer; [nullRead] is the [TypeError] the engine throws for
    reading the named property of [null]. *)
Record World : Type := mkWorld {
  fetch : Request -> result Response;
  nullRead : jsstring -> error
}.

(** The requests that have gone out on the network, oldest first. *)
Definition Network := list Request.

(** A step of a handler that may use the network: from the requests sent
    so far to its result and the requests sent after it. *)
Definition Net (A : Type) : Type := Network -> A * Network.

(** The platform's [fetch(url, options)]: the request goes out, and
    awaiting the call comes to what the world decides for that request.
    Nothing else sends a request. *)
Definition platformFetch (w : World) (r : Request) : Net (result Response) :=
  fun sent => (fetch w r, sent ++ [r]).

(** [fetchWithTimeout]: the abort timer belongs to the request; the
    response or the rejection of the platform's [fetch] is passed on as it
    is. *)
Definition fetchWithTimeout (w : World) (r : Request)
  : Net (result Response) :=
  fun sent =>
    match platformFetch w r sent with
    | (Return response, sent') => (Return response, sent')
    | (Throw e, sent') => (Throw e, sent')
    end.

(** The component state of [AIScreen]. *)
Record State : Type := mkState {
  messages : list Message;
  inputText : jsstring;
  isLoading : bool;
  settingsVisible : bool;
  clearChatVisible : bool
}.

(** [useUser()]: the two name fields, absent or present. *)
Record User : Type := mkUser {
  firstName : option jsstring;
  lastName : option jsstring
}.

(** [user?.firstName || 'User'] and [user?.lastName || ''] *)
Definition userFirstName (user : option User) : jsstring :=
  match user with
  | Some {| firstName := Some (c :: s) |} => c :: s
  | _ => lit "User"
  end.

Definition userLastName (user : option User) : jsstring :=
  match user with
  | Some {| lastName := Some (c :: s) |} => c :: s
  | _ => []
  end.

(** The greeting template; the four code units after the exclamation mark
    are the ones the source file holds. *)
Definition greetingText (user : option User) : jsstring :=
  lit "Hello " ++ userFirstName user ++ lit " " ++ userLastName user
  ++ lit "! " ++ [240; 376; 8216; 8249]%N
  ++ lit " I'm your AI assistant. How can I help you today?".

Definition greeting (user : option User) (now : Z) : Message :=
  {| id := lit "1"; text := Str (greetingText user);
     isUser := false; timestamp := now |}.

(** [useState] initial values. *)
Definition initialState (user : option User) (now : Z) : State :=
  {| messages := [greeting user now]; inputText := [];
     isLoading := false; settingsVisible := false;
     clearChatVisible := false |}.

(** [const AI_API = "process.env.AI_API"]: a string literal. *)
Definition AI_API : jsstring := lit "process.env.AI_API".

(** The canned replies of [fetchAIResponse]. *)
Definition replyNotConfigured : jsstring :=
  lit "I'm currently not configured properly. Please check the API settings.".
Definition reply401 : jsstring :=
  lit "I'm having trouble authenticating with the AI service. Please check your API configuration.".
Definition reply429 : jsstring :=
  lit "I'm receiving too many requests right now. Please wait a moment and try again.".
Definition reply5xx : jsstring :=
  lit "The AI service is currently experiencing issues. Please try again later.".
Definition replyBadFormat : jsstring :=
  lit "I received your message but couldn't process the response format.".
Definition replyTimeout : jsstring :=
  lit "The request took too long to complete. Please try again in a moment.".
Definition replyNetwork : jsstring :=
  lit "I'm having trouble connecting to the network. Please check your internet connection and try again.".
Definition replyUnreachable : jsstring :=
  lit "I couldn't reach the AI service. Please check your API endpoint and try again.".
Definition replyGeneric : jsstring :=
  lit "I apologize, but I'm having trouble processing your request right now. Please try again in a moment.".
Definition replySomethingWrong : jsstring :=
  lit "I'm sorry, something went wrong. Please try again later.".

(** Reading a property inside the [try] block. *)
Definition read (w : World) (v : value) (key : jsstring) : result value :=
  match prop v key with
  | Some x => Return x
  | None => Throw (nullRead w key)
  end.

Definition readIndex0 (w : World) (v : value) : result value :=
  match index0 v with
  | Some x => Return x
  | None => Throw (nullRead w (lit "0"))
  end.

(** [a && b], with [b] evaluated only when [a] is truthy. *)
Definition andThen (a : value) (b : result value) : result value :=
  if truthy a then b else Return a.

(** [data.choices && data.choices[0] && data.choices[0].text] *)
Definition choices0_text (w : World) (data : value) : result value :=
  choices <- read w data (lit "choices") ;;
  andThen choices
    (first <- readIndex0 w choices ;;
     andThen first (read w first (lit "text"))).

(** [data.choices && data.choices[0] && data.choices[0].message] *)
Definition choices0_message (w : World) (data : value) : result value :=
  choices <- read w data (lit "choices") ;;
  andThen choices
    (first <- readIndex0 w choices ;;
     andThen first (read w first (lit "message"))).

(** The chain of [if]s over the parsed body, lines 158 to 175. *)
Definition extractReply (w : World) (data : value) : result value :=
  reply <- read w data (lit "reply") ;;
  if truthy reply then Return reply else
  message <- read w data (lit "message") ;;
  if truthy message then Return message else
  output <- read w data (lit "output") ;;
  if truthy output then Return output else
  c0text <- choices0_text w data ;;
  if truthy c0text then Return c0text else
  c0message <- choices0_message w data ;;
  if truthy c0message then read w c0message (lit "content") else
  response <- read w data (lit "response") ;;
  if truthy response then Return response else
  match data with
  | Str _ => Return data
  | _ => Return (Str replyBadFormat)
  end.

(** The specification's reading of the same chain, to compare with
    [extractReply]: the reply is the first recognised shape of a fixed
    priority list, a bare string body after them, and a fixed reply when
    none is found.  A shape is a value that is tested and the value that is
    returned when the test is truthy; a path into the body reads
    [undefined] where a step is missing. *)
Definition field (v : value) (key : string) : value :=
  match v with
  | Obj fields => lookup (lit key) fields
  | _ => Undefined
  end.

Definition first (v : value) : value :=
  match index0 v with
  | Some x => x
  | None => Undefined
  end.

Definition shapes (data : value) : list (value * value) :=
  let choice := first (field data "choices") in
  [ (field data "reply", field data "reply");
    (field data "message", field data "message");
    (field data "output", field data "output");
    (field choice "text", field choice "text");
    (field choice "message", field (field choice "message") "content");
    (field data "response", field data "response") ].

Definition replyOfBody (data : value) : value :=
  match find (fun shape => truthy (fst shape)) (shapes data) with
  | Some shape => snd shape
  | None =>
      match data with
      | Str _ => data
      | _ => Str replyBadFormat
      end
  end.

(** The request of [fetchAIResponse]. *)
Definition chatRequest (user : option User) (now : Z) (prompt : jsstring)
  (endpoint : jsstring) : Request :=
  {| url := endpoint;
     method := lit "POST";
     headers := [(lit "Content-Type", lit "application/json")];
     body := {| body_prompt := trim prompt;
                body_user :=
                  trim (userFirstName user ++ lit " " ++ userLastName user);
                body_timestamp := now |};
     timeout := 30000 |}.

(** The [try] block of [fetchAIResponse] once the response is there,
    lines 137 to 175. *)
Definition fetchAIResponse_read (w : World) (response : Response)
  : result value :=
  if negb (ok response) then
    errorText <- response_text response ;;
    if status response =? 401 then Return (Str reply401)
    else if status response =? 429 then Return (Str reply429)
    else if status response >=? 500 then Return (Str reply5xx)
    else Throw (Error (lit "API returned status " ++ toString (status response)
                       ++ lit ": " ++ errorText))
  else
    data <- response_json response ;;
    extractReply w data.

(** The [try] block of [fetchAIResponse], lines 118 to 175: the request
    is sent through [fetchWithTimeout], and what comes back is read. *)
Definition fetchAIResponse_try (w : World) (request : Request)
  : Net (result value) :=
  fun sent =>
    let '(fetched, sent') := fetchWithTimeout w request sent in
    (response <- fetched ;; fetchAIResponse_read w response, sent').

(** [err.message?.includes(s)] *)
Definition messageIncludes (err : error) (s : string) : bool :=
  match message err with
  | Some m => includes m (lit s)
  | None => false
  end.

(** [err.name === 'AbortError'] *)
Definition isAbortError (err : error) : bool :=
  match name err with
  | Some n => eqb n (lit "AbortError")
  | None => false
  end.

(** The [catch] block of [fetchAIResponse], lines 176 to 189. *)
Definition fetchAIResponse_catch (err : error) : jsstring :=
  if isAbortError err || messageIncludes err "timeout"
     || messageIncludes err "abort"
  then replyTimeout
  else if messageIncludes err "Network request failed"
          || messageIncludes err "fetch"
  then replyNetwork
  else if messageIncludes err "Failed to fetch"
  then replyUnreachable
  else replyGeneric.

(** [fetchAIResponse], for an endpoint constant [endpoint], on a network:
    what awaiting it comes to and the requests sent after it. *)
Definition fetchAIResponseOn (endpoint : jsstring) (user : option User)
  (w : World) (now : Z) (prompt : jsstring) : Net (result value) :=
  fun sent =>
    if negb (truthy (Str endpoint)) then
      (Return (Str replyNotConfigured), sent)
    else
      let request := chatRequest user now prompt endpoint in
      let '(outcome, sent') := fetchAIResponse_try w request sent in
      (match outcome with
       | Return reply => Return reply
       | Throw err => Return (Str (fetchAIResponse_catch err))
       end,
       sent').

(** The requests that one call of [fetchAIResponse] sends, and what
    awaiting it comes to. *)
Definition fetchAIResponseAt (endpoint : jsstring) (user : option User)
  (w : World) (now : Z) (prompt : jsstring) : list Request * result value :=
  let '(outcome, sent) := fetchAIResponseOn endpoint user w now prompt [] in
  (sent, outcome).

(** [fetchAIResponse] of the screen, where the endpoint is [AI_API]. *)
Definition fetchAIResponse := fetchAIResponseAt AI_API.

(** [handleSendMessage] up to its [await], lines 193 to 204: [None] is the
    early [return] of the guard.  [t_id] is the instant read by
    [Date.now()], [t_stamp] the one read by [new Date()]. *)
Definition handleSendMessage_submit (t_id t_stamp : Z) (st : State)
  : option State :=
  if negb (truthy (Str (trim (inputText st)))) || isLoading st then None
  else
    let userMessage :=
      {| id := toString t_id; text := Str (trim (inputText st));
         isUser := true; timestamp := t_stamp |} in
    Some {| messages := messages st ++ [userMessage];
            inputText := [];
            isLoading := true;
            settingsVisible := settingsVisible st;
            clearChatVisible := clearChatVisible st |}.

(** [error.message || "I'm sorry, ..."] of the handler's own [catch]. *)
Definition errorMessageText (e : error) : value :=
  match message e with
  | Some (c :: m) => Str (c :: m)
  | _ => Str replySomethingWrong
  end.

(** [handleSendMessage] after its [await], lines 207 to 229, on the state
    the screen has then: both branches append through
    [setMessages(prev => [...prev, m])], and [finally] clears the flag. *)
Definition handleSendMessage_settle (t_id t_stamp : Z)
  (outcome : result value) (st : State) : State :=
  let reply :=
    match outcome with
    | Return responseText =>
        {| id := toString (t_id + 1); text := responseText;
           isUser := false; timestamp := t_stamp |}
    | Throw e =>
        {| id := toString (t_id + 1); text := errorMessageText e;
           isUser := false; timestamp := t_stamp |}
    end in
  {| messages := messages st ++ [reply];
     inputText := inputText st;
     isLoading := false;
     settingsVisible := settingsVisible st;
     clearChatVisible := clearChatVisible st |}.

(** The instants one send reads from the clock, in the order it reads
    them. *)
Record SendClock : Type := mkClock {
  t_user_id : Z;
  t_user_stamp : Z;
  t_request : Z;
  t_reply_id : Z;
  t_reply_stamp : Z
}.

(** [handleSendMessage] run from the press to the end with no other event
    of the screen in between: the new state and the requests issued.
    [fetchAIResponse] is called with the text the handler closed over. *)
Definition handleSendMessage (user : option User) (w : World)
  (clk : SendClock) (st : State) : State * list Request :=
  match handleSendMessage_submit (t_user_id clk) (t_user_stamp clk) st with
  | None => (st, [])
  | Some st1 =>
      let '(requests, outcome) :=
        fetchAIResponse user w (t_request clk) (inputText st) in
      (handleSendMessage_settle (t_reply_id clk) (t_reply_stamp clk)
         outcome st1,
       requests)
  end.

(** [closeSettings], once its animation has run. *)
Definition closeSettings (st : State) : State :=
  {| messages := messages st; inputText := inputText st;
     isLoading := isLoading st;
     settingsVisible := false; clearChatVisible := false |}.

(** [confirmClearChat], lines 236 to 246. *)
Definition confirmClearChat (user : option User) (now : Z) (st : State)
  : State :=
  closeSettings
    {| messages := [greeting user now]; inputText := inputText st;
       isLoading := isLoading st;
       settingsVisible := settingsVisible st;
       clearChatVisible := clearChatVisible st |}.

(** The events of the screen that touch the transcript or the input; the
    input is [editable] only while no send is in flight. *)
Inductive event : Type :=
| ChangeText (t : jsstring)
| PressSend (w : World) (clk : SendClock)
| ConfirmClear (now : Z).

Definition step (user : option User) (st : State) (e : event) : State :=
  match e with
  | ChangeText t =>
      if isLoading st then st
      else
        {| messages := messages st; inputText := t;
           isLoading := isLoading st;
           settingsVisible := settingsVisible st;
           clearChatVisible := clearChatVisible st |}
  | PressSend w clk => fst (handleSendMessage user w clk st)
  | ConfirmClear now => confirmClearChat user now st
  end.

Definition run (user : option User) (st : State) (es : list event) : State :=
  fold_left (step user) es st.

(** Every id of the transcript is the decimal of a number from 1 to
    [high]. *)
Definition idsUpTo (high : Z) (st : State) : Prop :=
  Forall (fun m => exists z, 1 <= z <= high /\ id m = toString z)
    (messages st).

(** A run whose sends read the clock late enough: each is pressed at an
    instant above [high], the highest number an id can hold so far, and is
    answered no earlier than it is pressed. *)
Fixpoint spaced (high : Z) (es : list event) : Prop :=
  match es with
  | [] => True
  | PressSend _ clk :: es' =>
      high < t_user_id clk /\ t_user_id clk <= t_reply_id clk
      /\ spaced (t_reply_id clk + 1) es'
  | _ :: es' => spaced high es'
  end.

End Chat.

(** ** What a handler does to the outside: alerts, navigation, and calls
    into the identity provider's SDK *)

Module UI.
Import JS.

(** Every call into the identity provider that the five source files make. *)
Inductive ProviderCall : Type :=
| SignUpCreate (emailAddress password : jsstring)
| PrepareEmailAddressVerification (strategy : jsstring)
| AttemptEmailAddressVerification (code : jsstring)
| SignInCreate (identifier password : jsstring)
| StartOAuthFlow (strategy : jsstring)
| SetActive (session : option jsstring)
| SignOut.

Inductive Navigation : Type :=
| RouterReplace (path : jsstring)
| RouterBack.

(** The [onPress] of an alert button. *)
Inductive OnPress : Type :=
| PressNavigate (n : Navigation)
| PressCall (c : ProviderCall).

Inductive effect : Type :=
| Alert (title message : jsstring) (buttons : list (jsstring * OnPress))
| Call (c : ProviderCall)
| Navigate (n : Navigation).

Definition isCall (e : effect) : bool :=
  match e with
  | Call _ => true
  | _ => false
  end.

Definition isAlert (e : effect) : bool :=
  match e with
  | Alert _ _ _ => true
  | _ => false
  end.

(** The calls into the provider among the effects of a handler. *)
Definition calls (es : list effect) : list effect := filter isCall es.

(** [interface ClerkError], one element of [errors]. *)
Record ClerkErrorItem : Type := mkItem {
  item_message : jsstring;
  item_code : option jsstring;
  item_longMessage : option jsstring
}.

(** A value caught by [catch (err: unknown)], by the tests the handlers
    make on it: an object with an [errors] key (whose value may be
    missing), else an instance of [Error], else anything else. *)
Inductive thrown : Type :=
| ClerkError (errors : option (list ClerkErrorItem))
| JsError (message : jsstring)
| OtherThrown.

Definition result := completion thrown.

(** [a || b] on an optional string and a string. *)
Definition orElse (a : option jsstring) (b : jsstring) : jsstring :=
  match a with
  | Some (c :: s) => c :: s
  | _ => b
  end.

(** [x === 'literal'] on an optional string. *)
Definition isLit (a : option jsstring) (s : string) : bool :=
  match a with
  | Some x => eqb x (lit s)
  | None => false
  end.

(** [clerkError.errors?.[0]?.message || fallback] *)
Definition firstMessageOr (errors : option (list ClerkErrorItem))
  (fallback : jsstring) : jsstring :=
  match errors with
  | Some (first :: _) => orElse (Some (item_message first)) fallback
  | _ => fallback
  end.

End UI.

(** ** The email verification screen, [VerifyEmailScreen] *)

Module VerifyEmail.
Import JS UI.
Local Open Scope Z_scope.

Inductive VerificationStatus : Type := pending | verified | failed.

(** The component state of [VerifyEmailScreen]. *)
Record State : Type := mkState {
  code : jsstring;
  isLoading : bool;
  isResending : bool;
  resendCooldown : Z;
  email : jsstring;
  verificationStatus : VerificationStatus
}.

Definition initialState : State :=
  {| code := []; isLoading := false; isResending := false;
     resendCooldown := 0; email := []; verificationStatus := pending |}.

(** The sign-up resource of the provider, by the fields the screen reads. *)
Record SignUp : Type := mkSignUp {
  status : jsstring;
  emailAddress : option jsstring
}.

(** [useSignUp()] *)
Record Hook : Type := mkHook {
  isLoaded : bool;
  signUp : option SignUp;
  setActive : bool
}.

(** What [attemptEmailAddressVerification] resolves to. *)
Record Attempt : Type := mkAttempt {
  attempt_status : jsstring;
  createdSessionId : option jsstring
}.

(** What awaiting the provider comes to. *)
Record World : Type := mkWorld {
  attemptEmailAddressVerification : jsstring -> result Attempt;
  activate : jsstring -> result unit;
  prepareEmailAddressVerification : jsstring -> result unit
}.

Definition isDigit (c : N) : bool := ((48 <=? c) && (c <=? 57))%N.

(** [text.replace(/[^0-9]/g, '').slice(0, 6)] *)
Definition sanitize (text : jsstring) : jsstring :=
  firstn 6 (filter isDigit text).

(** [onChangeText] of the code input, lines 356 to 359; the input is
    [editable] only while no verification is in flight. *)
Definition onChangeText (text : jsstring) (st : State) : State :=
  if isLoading st then st
  else
    {| code := sanitize text; isLoading := isLoading st;
       isResending := isResending st; resendCooldown := resendCooldown st;
       email := email st; verificationStatus := pending |}.

Definition setStatus (v : VerificationStatus) (loading : bool) (st : State)
  : State :=
  {| code := code st; isLoading := loading;
     isResending := isResending st; resendCooldown := resendCooldown st;
     email := email st; verificationStatus := v |}.

Definition msgSystemNotReady : jsstring :=
  lit "System not ready. Please try signing up again.".
Definition msgCannotVerify : jsstring :=
  lit "Cannot verify email at this time. Please try signing up again.".
Definition msgEnterCode : jsstring :=
  lit "Please enter the verification code".
Definition msgSixDigits : jsstring :=
  lit "Verification code must be exactly 6 digits".

(** The message of the [catch] block of [handleVerify], lines 137 to 166. *)
Definition verifyErrorMessage (err : thrown) : jsstring :=
  let errorMessage :=
    lit "Failed to verify email. Please check the code and try again." in
  match err with
  | ClerkError (Some (firstError :: _)) =>
      if isLit (item_code firstError) "form_code_incorrect" then
        lit "The verification code is incorrect. Please check and try again."
      else if isLit (item_code firstError) "form_code_expired" then
        lit "The verification code has expired. Please request a new one."
      else if isLit (item_code firstError) "verification_failed" then
        lit "Verification failed. The code may be invalid or expired."
      else if isLit (item_code firstError) "form_identifier_exists" then
        lit "This email is already registered. Please sign in instead."
      else
        orElse (item_longMessage firstError)
          (orElse (Some (item_message firstError)) errorMessage)
  | ClerkError _ => errorMessage
  | JsError message =>
      if includes message (lit "already verified") then
        lit "This email is already verified. Please sign in instead."
      else if includes message (lit "expired") then
        lit "The verification code has expired. Please request a new one."
      else message
  | OtherThrown => errorMessage
  end.

(** The [try] block of [handleVerify], lines 95 to 132: the status the
    screen is left with, the effects, and how the block ends. *)
Definition handleVerify_try (h : Hook) (w : World) (st : State)
  : VerificationStatus * list effect * result unit :=
  let submitted := trim (code st) in
  let call := Call (AttemptEmailAddressVerification submitted) in
  match attemptEmailAddressVerification w submitted with
  | Throw e => (verificationStatus st, [call], Throw e)
  | Return completeSignUp =>
      if eqb (attempt_status completeSignUp) (lit "complete") then
        match setActive h, createdSessionId completeSignUp with
        | true, Some (c :: s) =>
            let session := c :: s in
            let call2 := Call (SetActive (Some session)) in
            match activate w session with
            | Throw e => (verified, [call; call2], Throw e)
            | Return _ =>
                (verified,
                 [call; call2;
                  Alert (lit "Success! " ++ [55356; 57225]%N)
                    (lit "Your email has been verified successfully! Welcome to FimPay.")
                    [(lit "Get Started",
                      PressNavigate (RouterReplace (lit "/(tabs)")))]],
                 Return tt)
            end
        | _, _ =>
            (verified, [call], Throw (JsError (lit "Failed to create session")))
        end
      else
        (verificationStatus st, [call],
         Throw (JsError (lit "Verification failed with status: "
                         ++ attempt_status completeSignUp)))
  end.

(** [handleVerify], lines 71 to 172. *)
Definition handleVerify (h : Hook) (w : World) (st : State)
  : State * list effect :=
  match isLoaded h, signUp h with
  | true, Some su =>
      if negb (eqb (status su) (lit "missing_requirements")) then
        (st, [Alert (lit "Error") msgCannotVerify []])
      else if negb (truthy (Str (trim (code st)))) then
        (st, [Alert (lit "Error") msgEnterCode []])
      else if negb (Z.of_nat (List.length (code st)) =? 6) then
        (st, [Alert (lit "Error") msgSixDigits []])
      else
        match handleVerify_try h w st with
        | (v, effects, Return _) => (setStatus v false st, effects)
        | (_, effects, Throw err) =>
            (setStatus failed false st,
             effects ++ [Alert (lit "Verification Failed")
                           (verifyErrorMessage err) []])
        end
  | _, _ => (st, [Alert (lit "Error") msgSystemNotReady []])
  end.

Definition setResend (resending : bool) (cooldown : Z) (st : State) : State :=
  {| code := code st; isLoading := isLoading st;
     isResending := resending; resendCooldown := cooldown;
     email := email st; verificationStatus := verificationStatus st |}.

(** [handleResendCode] up to its [await], lines 175 to 191. *)
Definition handleResendCode_start (h : Hook) (st : State)
  : State * list effect :=
  match isLoaded h, signUp h with
  | true, Some su =>
      if 0 <? resendCooldown st then (st, [])
      else if eqb (status su) (lit "complete") then
        (st, [Alert (lit "Already Verified")
                (lit "Your email is already verified. Please sign in instead.")
                []])
      else
        (setResend true (resendCooldown st) st,
         [Call (PrepareEmailAddressVerification (lit "email_code"))])
  | _, _ => (st, [])
  end.

(** The message of the [catch] block of [handleResendCode]. *)
Definition resendErrorMessage (err : thrown) : jsstring :=
  let errorMessage :=
    lit "Failed to resend verification code. Please try again." in
  match err with
  | ClerkError errors =>
      match errors with
      | Some (first :: _) =>
          if isLit (item_code first) "form_identifier_exists" then
            lit "This email is already registered and verified. Please sign in instead."
          else firstMessageOr errors errorMessage
      | _ => errorMessage
      end
  | JsError message => message
  | OtherThrown => errorMessage
  end.

(** [handleResendCode] after its [await], lines 193 to 218, on the state
    the screen has then. *)
Definition handleResendCode_settle (outcome : result unit) (st : State)
  : State * list effect :=
  match outcome with
  | Return _ =>
      (setResend false 30 st,
       [Alert (lit "Code Sent! " ++ [9989]%N)
          (lit "A new verification code has been sent to " ++ email st
           ++ lit ". Please check your inbox and spam folder.")
          []])
  | Throw err =>
      (setResend false (resendCooldown st) st,
       [Alert (lit "Resend Failed") (resendErrorMessage err) []])
  end.

(** [disabled] of the resend button, line 405. *)
Definition resendDisabled (st : State) : bool :=
  isResending st || (0 <? resendCooldown st).

(** A press on the resend button: a disabled button does not call its
    [onPress]. *)
Definition pressResend (h : Hook) (st : State) : State * list effect :=
  if resendDisabled st then (st, []) else handleResendCode_start h st.

(** The cooldown timer, lines 55 to 69: the effect installs an interval
    only while [resendCooldown > 0] and replaces it whenever the counter
    changes, so a tick is one run of [prev => prev - 1] under that test. *)
Definition tick (st : State) : State :=
  if 0 <? resendCooldown st
  then setResend (isResending st) (resendCooldown st - 1) st
  else st.

(** [disabled] of the verify button, line 381. *)
Definition verifyDisabled (st : State) : bool :=
  negb (truthy (Str (code st)))
  || negb (Z.of_nat (List.length (code st)) =? 6)
  || isLoading st.

(** The events of the screen. *)
Inductive event : Type :=
| ChangeText (text : jsstring)
| Verify (h : Hook) (w : World)
| PressResend (h : Hook)
| ResendSettles (outcome : result unit)
| Tick.

(** A resend settles only if one is in flight. *)
Definition step (st : State) (e : event) : State :=
  match e with
  | ChangeText text => onChangeText text st
  | Verify h w => fst (handleVerify h w st)
  | PressResend h => fst (pressResend h st)
  | ResendSettles outcome =>
      if isResending st then fst (handleResendCode_settle outcome st) else st
  | Tick => tick st
  end.

Definition run (st : State) (es : list event) : State :=
  fold_left step es st.

(** The claim's pattern [^[0-9]{6}$]. *)
Definition matchesSixDigits (s : jsstring) : bool :=
  (Nat.eqb (List.length s) 6) && forallb isDigit s.

End VerifyEmail.

(** ** The sign-in screen, [SignInScreen] *)

Module SignIn.
Import JS UI.

(** The component state of [SignInScreen]. *)
Record State : Type := mkState {
  email : jsstring;
  password : jsstring;
  showPassword : bool;
  isLoading : bool
}.

(** [useSignIn()], by what the handler tests. *)
Record Hook : Type := mkHook {
  isLoaded : bool;
  setActive : bool
}.

(** What [signIn.create] resolves to. *)
Record SignInResult : Type := mkResult {
  status : jsstring;
  createdSessionId : option jsstring
}.

Record World : Type := mkWorld {
  create : jsstring -> jsstring -> result SignInResult;
  activate : option jsstring -> result unit
}.

Definition msgFillAll : jsstring := lit "Please fill in all fields".
Definition msgNoSpaces : jsstring :=
  lit "Email and password cannot contain spaces".

Definition setLoading (b : bool) (st : State) : State :=
  {| email := email st; password := password st;
     showPassword := showPassword st; isLoading := b |}.

(** The message of the [catch] block of [handleSubmit], lines 70 to 78. *)
Definition signInErrorMessage (err : thrown) : jsstring :=
  let errorMessage :=
    lit "An error occurred during sign in. Please try again." in
  match err with
  | ClerkError errors => firstMessageOr errors errorMessage
  | JsError message => message
  | OtherThrown => errorMessage
  end.

(** The [try] block of [handleSubmit], lines 55 to 66. *)
Definition handleSubmit_try (w : World) (st : State)
  : list effect * result unit :=
  let call := Call (SignInCreate (trim (email st)) (password st)) in
  match create w (trim (email st)) (password st) with
  | Throw e => ([call], Throw e)
  | Return r =>
      if eqb (status r) (lit "complete") then
        let call2 := Call (SetActive (createdSessionId r)) in
        match activate w (createdSessionId r) with
        | Throw e => ([call; call2], Throw e)
        | Return _ =>
            ([call; call2; Navigate (RouterReplace (lit "/(tabs)"))],
             Return tt)
        end
      else
        ([call;
          Alert (lit "Error")
            (lit "Sign in failed. Please check your credentials.") []],
         Return tt)
  end.

(** [handleSubmit], lines 39 to 87. *)
Definition handleSubmit (h : Hook) (w : World) (st : State)
  : State * list effect :=
  if negb (isLoaded h) || negb (setActive h) then (st, [])
  else if negb (truthy (Str (email st))) || negb (truthy (Str (password st)))
  then (st, [Alert (lit "Error") msgFillAll []])
  else if includes (email st) (lit " ") || includes (password st) (lit " ")
  then (st, [Alert (lit "Error") msgNoSpaces []])
  else
    match handleSubmit_try w st with
    | (effects, Return _) => (setLoading false st, effects)
    | (effects, Throw err) =>
        (setLoading false st,
         effects ++ [Alert (lit "Sign In Failed") (signInErrorMessage err) []])
    end.

End SignIn.

(** ** The profile screen, [app/(tabs)/profile.tsx] *)

Module Profile.
Import JS UI.

(** The component state of [ProfileScreen]. *)
Record State : Type := mkState {
  settingsVisible : bool;
  deleteAccountVisible : bool
}.

(** [closeSettings], once its animation has run. *)
Definition closeSettings (st : State) : State :=
  {| settingsVisible := false; deleteAccountVisible := false |}.

(** [handleDeleteAccount] *)
Definition handleDeleteAccount (st : State) : State :=
  {| settingsVisible := settingsVisible st; deleteAccountVisible := true |}.

Definition deletionTitle : jsstring := lit "Account Deletion Initiated".
Definition deletionMessage : jsstring :=
  lit "Your account deletion has been done. Any remaining balance of $2,458.75 will be transferred to your registered bank account within 3-5 business days.".

(** [confirmDeleteAccount], lines 80 to 91; neither statement of its [try]
    block throws. *)
Definition confirmDeleteAccount (st : State) : State * list effect :=
  (closeSettings st,
   [Alert deletionTitle deletionMessage
      [(lit "OK", PressCall SignOut)]]).

(** A press on a button of an alert runs its [onPress]. *)
Definition pressButton (p : OnPress) : list effect :=
  match p with
  | PressNavigate n => [Navigate n]
  | PressCall c => [Call c]
  end.

(** The effects of an alert and of a press on each of its buttons. *)
Definition withButtons (e : effect) : list effect :=
  match e with
  | Alert _ _ buttons => e :: flat_map (fun b => pressButton (snd b)) buttons
  | _ => [e]
  end.

(** [handleSignOut], lines 68 to 74, for what awaiting [signOut] comes
    to. *)
Definition handleSignOut (outcome : result unit) : list effect :=
  match outcome with
  | Return _ => [Call SignOut]
  | Throw _ =>
      [Call SignOut;
       Alert (lit "Error") (lit "Failed to sign out. Please try again.") []]
  end.

End Profile.

(** ** The chat screen, event by event

    A send takes two events of the screen, the press and the settling of
    the request, and the other handlers of the screen can run between the
    two. *)

Module ChatFlow.
Import JS Chat.
Local Open Scope Z_scope.

(** A send in flight: the text its handler closed over and the instant of
    its request. *)
Record Pending : Type := mkPending {
  prompt : jsstring;
  requested : Z
}.

Record Screen : Type := mkScreen {
  ui : State;
  pending : option Pending
}.

Definition initialScreen (user : option User) (now : Z) : Screen :=
  {| ui := initialState user now; pending := None |}.

Definition setVisible (settings clear : bool) (st : State) : State :=
  {| messages := messages st; inputText := inputText st;
     isLoading := isLoading st;
     settingsVisible := settings; clearChatVisible := clear |}.

(** [openSettings], line 88. *)
Definition openSettings (st : State) : State :=
  setVisible true (clearChatVisible st) st.

(** [handleClearChat], line 232. *)
Definition handleClearChat (st : State) : State :=
  setVisible (settingsVisible st) true st.

(** [() => setClearChatVisible(false)], lines 571 and 591. *)
Definition cancelClearChat (st : State) : State :=
  setVisible (settingsVisible st) false st.

(** [disabled] of the send button, line 451. *)
Definition sendDisabled (st : State) : bool :=
  negb (truthy (Str (trim (inputText st)))) || isLoading st.

Inductive event : Type :=
| ChangeText (t : jsstring)
| PressSend (t_id t_stamp t_request : Z)
| Settle (w : World) (t_id t_stamp : Z)
| OpenSettings
| CloseSettings
| AskClear
| CancelClear
| ConfirmClear (now : Z)
| NewChat (now : Z).

Definition onUi (f : State -> State) (s : Screen) : Screen :=
  {| ui := f (ui s); pending := pending s |}.

Definition step (user : option User) (s : Screen) (e : event) : Screen :=
  match e with
  | ChangeText t =>
      if isLoading (ui s) then s
      else
        onUi (fun st =>
                {| messages := messages st; inputText := t;
                   isLoading := isLoading st;
                   settingsVisible := settingsVisible st;
                   clearChatVisible := clearChatVisible st |}) s
  | PressSend t_id t_stamp t_request =>
      match handleSendMessage_submit t_id t_stamp (ui s) with
      | None => s
      | Some st1 =>
          {| ui := st1;
             pending := Some {| prompt := inputText (ui s);
                                requested := t_request |} |}
      end
  | Settle w t_id t_stamp =>
      match pending s with
      | None => s
      | Some p =>
          {| ui := handleSendMessage_settle t_id t_stamp
                     (snd (fetchAIResponse user w (requested p) (prompt p)))
                     (ui s);
             pending := None |}
      end
  | OpenSettings => onUi openSettings s
  | CloseSettings => onUi closeSettings s
  | AskClear => onUi handleClearChat s
  | CancelClear => onUi cancelClearChat s
  | ConfirmClear now => onUi (confirmClearChat user now) s
  | NewChat now =>
      onUi (fun st => confirmClearChat user now (cancelClearChat st)) s
  end.

Definition run (user : option User) (s : Screen) (es : list event) : Screen :=
  fold_left (step user) es s.

(** What every event keeps: the transcript starts with the greeting, a
    request is pending exactly while the loading flag is set, and the
    input is empty while it is. *)
Definition flowInvariant (user : option User) (s : Screen) : Prop :=
  (exists now rest, messages (ui s) = greeting user now :: rest)
  /\ (isLoading (ui s) = true <-> pending s <> None)
  /\ (isLoading (ui s) = true -> inputText (ui s) = []).

End ChatFlow.

(** ** The verification screen, what it shows *)

Module VerifyView.
Import JS UI VerifyEmail.

(** The three returns of [VerifyEmailScreen], lines 229 to 268: the
    spinner, the "Verification Issue" page, and the form with the code
    input and the two buttons. *)
Inductive View : Type := LoadingView | IssueView | FormView.

Definition render (h : Hook) : View :=
  if negb (isLoaded h) then LoadingView
  else
    match signUp h with
    | None => IssueView
    | Some su =>
        if eqb (status su) (lit "complete") then IssueView else FormView
    end.

(** The alert of a verified email, lines 115 to 124. *)
Definition successAlert : effect :=
  Alert (lit "Success! " ++ [55356; 57225]%N)
    (lit "Your email has been verified successfully! Welcome to FimPay.")
    [(lit "Get Started", PressNavigate (RouterReplace (lit "/(tabs)")))].

(** [handleGoBack] and [handleSignInInstead], lines 221 to 227. *)
Definition handleGoBack : list effect := [Navigate RouterBack].

Definition handleSignInInstead : list effect :=
  [Navigate (RouterReplace (lit "/sign-in"))].

End VerifyView.

(** ** The sign-in form, what is typed into it *)

Module SignInForm.
Import JS UI SignIn.

(** [text.replace(/\s/g, '')], the [onChangeText] of the email and of the
    password input, lines 254 and 274: [\s] is the white space that
    [trim] strips. *)
Definition stripWhiteSpace (text : jsstring) : jsstring :=
  filter (fun c => negb (isWhiteSpace c)) text.

(** A text without white space. *)
Definition noWhiteSpace (s : jsstring) : Prop :=
  forallb (fun c => negb (isWhiteSpace c)) s = true.

Definition initialState : State :=
  {| email := []; password := []; showPassword := false;
     isLoading := false |}.

(** [disabled] of the sign-in button, line 303. *)
Definition submitDisabled (st : State) : bool :=
  negb (truthy (Str (email st))) || negb (truthy (Str (password st)))
  || isLoading st.

(** The events of the form; the inputs are [editable], and the eye button
    enabled, only while nothing is in flight. *)
Inductive event : Type :=
| ChangeEmail (text : jsstring)
| ChangePassword (text : jsstring)
| ToggleShowPassword
| PressSubmit (h : Hook) (w : World).

Definition step (st : State) (e : event) : State :=
  match e with
  | ChangeEmail text =>
      if isLoading st then st
      else {| email := stripWhiteSpace text; password := password st;
              showPassword := showPassword st; isLoading := isLoading st |}
  | ChangePassword text =>
      if isLoading st then st
      else {| email := email st; password := stripWhiteSpace text;
              showPassword := showPassword st; isLoading := isLoading st |}
  | ToggleShowPassword =>
      if isLoading st then st
      else {| email := email st; password := password st;
              showPassword := negb (showPassword st);
              isLoading := isLoading st |}
  | PressSubmit h w =>
      if submitDisabled st then st else fst (handleSubmit h w st)
  end.

Definition run (st : State) (es : list event) : State :=
  fold_left step es st.

End SignInForm.

(** ** The OAuth buttons of the sign-in and of the sign-up screen *)

Module OAuth.
Import JS UI.

(** A value caught by [catch (err: unknown)], by the two tests these
    handlers make on it: [err instanceof Error], with its message, and
    ['errors' in err], with the value of the key.  An error of the
    provider passes both. *)
Record caught : Type := mkCaught {
  asError : option jsstring;
  errorsKey : option (option (list ClerkErrorItem))
}.

Definition result := completion caught.

(** [new Error(msg)] *)
Definition Error (msg : jsstring) : caught :=
  {| asError := Some msg; errorsKey := None |}.

(** An alert whose buttons may come without an [onPress]. *)
Inductive effect : Type :=
| Alert (title message : jsstring)
        (buttons : list (jsstring * option OnPress))
| Call (c : ProviderCall)
| Navigate (n : Navigation).

Definition isAlert (e : effect) : bool :=
  match e with
  | Alert _ _ _ => true
  | _ => false
  end.

(** What [startOAuthFlow] resolves to. *)
Record Flow : Type := mkFlow {
  createdSessionId : option jsstring;
  setActive : bool
}.

Record World : Type := mkWorld {
  startOAuthFlow : jsstring -> result Flow;
  activate : jsstring -> result unit
}.

(** The texts in which the four handlers differ, and whether the
    cancellation test also looks for [user_cancelled] (the two of the
    sign-in screen do). *)
Record Texts : Type := mkTexts {
  strategy : jsstring;
  incomplete : jsstring;
  fallback : jsstring;
  title : jsstring;
  testsUserCancelled : bool
}.

Definition googleSignIn : Texts :=
  {| strategy := lit "oauth_google";
     incomplete := lit "Google sign in incomplete";
     fallback := lit "Failed to sign in with Google. Please try again.";
     title := lit "Google Sign In Failed";
     testsUserCancelled := true |}.

Definition microsoftSignIn : Texts :=
  {| strategy := lit "oauth_microsoft";
     incomplete := lit "Microsoft sign in incomplete";
     fallback := lit "Failed to sign in with Microsoft. Please try again.";
     title := lit "Microsoft Sign In Failed";
     testsUserCancelled := true |}.

Definition googleSignUp : Texts :=
  {| strategy := lit "oauth_google";
     incomplete := lit "Google sign up incomplete";
     fallback := lit "Failed to sign up with Google. Please try again.";
     title := lit "Google Sign Up Failed";
     testsUserCancelled := false |}.

Definition microsoftSignUp : Texts :=
  {| strategy := lit "oauth_microsoft";
     incomplete := lit "Microsoft sign up incomplete";
     fallback := lit "Failed to sign up with Microsoft. Please try again.";
     title := lit "Microsoft Sign Up Failed";
     testsUserCancelled := false |}.

(** The [try] block: the effects and how the block ends. *)
Definition handle_try (t : Texts) (w : World) : list effect * result unit :=
  let call := Call (StartOAuthFlow (strategy t)) in
  match startOAuthFlow w (strategy t) with
  | Throw e => ([call], Throw e)
  | Return flow =>
      match createdSessionId flow, setActive flow with
      | Some (c :: s), true =>
          let call2 := Call (SetActive (Some (c :: s))) in
          match activate w (c :: s) with
          | Throw e => ([call; call2], Throw e)
          | Return _ =>
              ([call; call2; Navigate (RouterReplace (lit "/(tabs)"))],
               Return tt)
          end
      | _, _ => ([call], Throw (Error (incomplete t)))
      end
  end.

(** [err instanceof Error && err.message.includes('cancelled')], with the
    second [includes] of the sign-in screen. *)
Definition isCancellation (t : Texts) (err : caught) : bool :=
  match asError err with
  | Some message =>
      includes message (lit "cancelled")
      || (testsUserCancelled t && includes message (lit "user_cancelled"))
  | None => false
  end.

(** The message of the alert: [errors?.[0]?.message] of an object with
    the key, else the message of an [Error], else the fallback. *)
Definition errorMessage (t : Texts) (err : caught) : jsstring :=
  match errorsKey err with
  | Some errors => firstMessageOr errors (fallback t)
  | None =>
      match asError err with
      | Some message => message
      | None => fallback t
      end
  end.

(** One of [handleGoogleSignIn], [handleMicrosoftSignIn],
    [handleGoogleSignUp], [handleMicrosoftSignUp]: the loading flag the
    handler leaves and its effects; [None] is the early [return] of
    [!isLoaded], which leaves the flag alone. *)
Definition handle (t : Texts) (isLoaded : bool) (w : World)
  : option bool * list effect :=
  if negb isLoaded then (None, [])
  else
    match handle_try t w with
    | (effects, Return _) => (Some false, effects)
    | (effects, Throw err) =>
        if isCancellation t err then (Some false, effects)
        else
          (Some false,
           effects ++ [Alert (title t) (errorMessage t err)
                         [(lit "OK", None)]])
    end.

Definition handleGoogleSignIn := handle googleSignIn.
Definition handleMicrosoftSignIn := handle microsoftSignIn.
Definition handleGoogleSignUp := handle googleSignUp.
Definition handleMicrosoftSignUp := handle microsoftSignUp.

End OAuth.

(** ** Regular expressions over code units

    The sign-up screen tests the email against a regular expression made
    of character classes, sequence and [+], anchored at both ends, with no
    flag: [test] asks whether the whole text is in its language. *)

Module Regex.
Import JS.

Inductive re : Type :=
| Empty
| Class (p : N -> bool)
| Cat (r1 r2 : re)
| Alt (r1 r2 : re)
| Star (r : re)
| Never.

(** [r+] *)
Definition Plus (r : re) : re := Cat r (Star r).

(** The language of an expression. *)
Inductive Matches : re -> jsstring -> Prop :=
| MEmpty : Matches Empty []
| MClass p c : p c = true -> Matches (Class p) [c]
| MCat r1 r2 s1 s2 :
    Matches r1 s1 -> Matches r2 s2 -> Matches (Cat r1 r2) (s1 ++ s2)
| MAltL r1 r2 s : Matches r1 s -> Matches (Alt r1 r2) s
| MAltR r1 r2 s : Matches r2 s -> Matches (Alt r1 r2) s
| MStarNil r : Matches (Star r) []
| MStarApp r s1 s2 :
    Matches r s1 -> Matches (Star r) s2 -> Matches (Star r) (s1 ++ s2).

Fixpoint nullable (r : re) : bool :=
  match r with
  | Empty => true
  | Class _ => false
  | Cat r1 r2 => nullable r1 && nullable r2
  | Alt r1 r2 => nullable r1 || nullable r2
  | Star _ => true
  | Never => false
  end.

(** What is left of [r] after the code unit [c]. *)
Fixpoint deriv (c : N) (r : re) : re :=
  match r with
  | Empty => Never
  | Class p => if p c then Empty else Never
  | Cat r1 r2 =>
      if nullable r1
      then Alt (Cat (deriv c r1) r2) (deriv c r2)
      else Cat (deriv c r1) r2
  | Alt r1 r2 => Alt (deriv c r1) (deriv c r2)
  | Star r1 => Cat (deriv c r1) (Star r1)
  | Never => Never
  end.

(** [/^r$/.test(s)] *)
Fixpoint test (r : re) (s : jsstring) : bool :=
  match s with
  | [] => nullable r
  | c :: s' => test (deriv c r) s'
  end.

End Regex.

(** ** The sign-up screen, [app/(auth)/sign-up.tsx] *)

Module SignUp.
Import JS UI Regex.
Local Open Scope Z_scope.

(** The component state of [SignUpScreen]. *)
Record State : Type := mkState {
  firstName : jsstring;
  lastName : jsstring;
  email : jsstring;
  password : jsstring;
  showPassword : bool;
  isLoading : bool
}.

(** The calls of [handleSubmit] into the provider, with what they are
    given. *)
Inductive call : Type :=
| Create (firstName lastName emailAddress password : jsstring)
| PrepareEmailAddressVerification (strategy : jsstring).

(** [router.push({ pathname, params })] *)
Inductive press : Type :=
| Push (pathname : jsstring) (params : list (jsstring * jsstring)).

Inductive effect : Type :=
| Alert (title message : jsstring) (buttons : list (jsstring * option press))
| Call (c : call).

Definition isCall (e : effect) : bool :=
  match e with
  | Call _ => true
  | _ => false
  end.

Record World : Type := mkWorld {
  create : jsstring -> jsstring -> jsstring -> jsstring -> result unit;
  prepareEmailAddressVerification : jsstring -> result unit
}.

(** [[^\s@]] *)
Definition notSpaceNorAt (c : N) : bool :=
  negb (isWhiteSpace c || (c =? 64)%N).

(** [/^[^\s@]+@[^\s@]+\.[^\s@]+$/], line 61. *)
Definition emailRegex : re :=
  Cat (Plus (Class notSpaceNorAt))
    (Cat (Class (N.eqb 64))
       (Cat (Plus (Class notSpaceNorAt))
          (Cat (Class (N.eqb 46))
             (Plus (Class notSpaceNorAt))))).

Definition msgRequired : jsstring := lit "Please fill in all required fields".
Definition msgNoSpaces : jsstring :=
  lit "Email and password cannot contain spaces".
Definition msgValidEmail : jsstring :=
  lit "Please enter a valid email address".
Definition msgPasswordLength : jsstring :=
  lit "Password must be at least 8 characters long".

(** The message of the [catch] block of [handleSubmit], lines 116 to
    140. *)
Definition signUpErrorMessage (err : thrown) : jsstring :=
  let errorMessage :=
    lit "An error occurred during sign up. Please try again." in
  match err with
  | ClerkError (Some (firstError :: _)) =>
      let shown :=
        orElse (item_longMessage firstError)
          (orElse (Some (item_message firstError)) errorMessage) in
      if isLit (item_code firstError) "form_identifier_exists" then
        lit "This email address is already registered. Please try signing in instead."
      else if isLit (item_code firstError) "form_password_length_too_short"
      then lit "Password is too short. Please use at least 8 characters."
      else if isLit (item_code firstError) "form_password_pwned" then
        lit "This password has been compromised in data breaches. Please choose a different password."
      else if isLit (item_code firstError) "form_param_format_invalid" then
        if includes (item_message firstError) (lit "email")
        then lit "Please enter a valid email address."
        else shown
      else shown
  | ClerkError _ => errorMessage
  | JsError message => message
  | OtherThrown => errorMessage
  end.

(** The alert of a sent verification code, lines 99 to 111. *)
Definition sentAlert (st : State) : effect :=
  Alert (lit "Verification Email Sent! " ++ [9989]%N)
    (lit "We've sent a verification code to " ++ email st
     ++ lit ". Please check your inbox and spam folder.")
    [(lit "Enter Verification Code",
      Some (Push (lit "/verify-email") [(lit "email", trim (email st))]))].

(** The [try] block of [handleSubmit], lines 75 to 111. *)
Definition handleSubmit_try (w : World) (st : State)
  : list effect * result unit :=
  let call1 :=
    Call (Create (trim (firstName st)) (trim (lastName st))
            (trim (email st)) (password st)) in
  match create w (trim (firstName st)) (trim (lastName st))
          (trim (email st)) (password st) with
  | Throw e => ([call1], Throw e)
  | Return _ =>
      let call2 := Call (PrepareEmailAddressVerification (lit "email_code")) in
      match prepareEmailAddressVerification w (lit "email_code") with
      | Throw e => ([call1; call2], Throw e)
      | Return _ => ([call1; call2; sentAlert st], Return tt)
      end
  end.

(** The four tests of [handleSubmit], lines 49 to 71: the message of
    the alert a test fails with. *)
Definition validate (st : State) : option jsstring :=
  if negb (truthy (Str (firstName st))) || negb (truthy (Str (lastName st)))
     || negb (truthy (Str (email st))) || negb (truthy (Str (password st)))
  then Some msgRequired
  else if includes (email st) (lit " ") || includes (password st) (lit " ")
  then Some msgNoSpaces
  else if negb (test emailRegex (email st))
  then Some msgValidEmail
  else if Z.of_nat (List.length (password st)) <? 8
  then Some msgPasswordLength
  else None.

Definition setLoading (b : bool) (st : State) : State :=
  {| firstName := firstName st; lastName := lastName st;
     email := email st; password := password st;
     showPassword := showPassword st; isLoading := b |}.

(** [handleSubmit], lines 45 to 150. *)
Definition handleSubmit (isLoaded : bool) (w : World) (st : State)
  : State * list effect :=
  if negb isLoaded then (st, [])
  else
    match validate st with
    | Some message => (st, [Alert (lit "Error") message []])
    | None =>
        match handleSubmit_try w st with
        | (effects, Return _) => (setLoading false st, effects)
        | (effects, Throw err) =>
            (setLoading false st,
             effects ++ [Alert (lit "Sign Up Failed " ++ [10060]%N)
                           (signUpErrorMessage err) [(lit "OK", None)]])
        end
    end.

End SignUp.

(** ** Sample inputs, for the instances of the properties below *)

Module Sample.
Import JS.

(** The [TypeError] of the Hermes engine for a read on [null]. *)
Definition nullRead (key : jsstring) : Chat.error :=
  {| Chat.name := Some (lit "TypeError");
     Chat.message :=
       Some (lit "Cannot read property '" ++ key ++ lit "' of null") |}.

(** A network on which every request comes to [outcome]. *)
Definition world (outcome : Chat.result Chat.Response) : Chat.World :=
  {| Chat.fetch := fun _ => outcome; Chat.nullRead := nullRead |}.

(** A 200 response whose body parses to [data]. *)
Definition okJson (data : value) : Chat.Response :=
  {| Chat.ok := true; Chat.status := 200;
     Chat.response_text := Return [];
     Chat.response_json := Return data |}.

(** A response of a failure status with the text [errorText] as body. *)
Definition failed (status : Z) (errorText : jsstring) : Chat.Response :=
  {| Chat.ok := false; Chat.status := status;
     Chat.response_text := Return errorText;
     Chat.response_json :=
       Throw {| Chat.name := Some (lit "SyntaxError");
                Chat.message := Some (lit "JSON Parse error") |} |}.

(** The rejection of an aborted [fetch]. *)
Definition aborted : Chat.error :=
  {| Chat.name := Some (lit "AbortError");
     Chat.message := Some (lit "Aborted") |}.

(** A screen with [text] typed into the input. *)
Definition typed (text : string) : Chat.State :=
  Chat.step None (Chat.initialState None 0) (Chat.ChangeText (lit text)).

(** The clock of a send pressed at [t0] whose reply arrives at [t1]. *)
Definition clock (t0 t1 : Z) : Chat.SendClock :=
  {| Chat.t_user_id := t0; Chat.t_user_stamp := t0; Chat.t_request := t0;
     Chat.t_reply_id := t1; Chat.t_reply_stamp := t1 |}.

End Sample.

(** ** Sample forms and providers *)

Module SampleForms.
Import JS.

(** The verification screen with the SDK loaded and the sign-up waiting
    for its code. *)
Definition waiting : VerifyEmail.Hook :=
  VerifyEmail.mkHook true
    (Some (VerifyEmail.mkSignUp (lit "missing_requirements") None)) true.

Definition waitingSignUp : VerifyEmail.SignUp :=
  VerifyEmail.mkSignUp (lit "missing_requirements") None.

(** A provider that completes every verification with the session
    [sess_1]. *)
Definition completes : VerifyEmail.World :=
  VerifyEmail.mkWorld
    (fun _ => Return (VerifyEmail.mkAttempt (lit "complete")
                        (Some (lit "sess_1"))))
    (fun _ => Return tt) (fun _ => Return tt).

(** A provider that completes every sign-in. *)
Definition signsIn : SignIn.World :=
  SignIn.mkWorld
    (fun _ _ => Return (SignIn.mkResult (lit "complete")
                          (Some (lit "sess_1"))))
    (fun _ => Return tt).

(** An OAuth flow that the user closes. *)
Definition closed : OAuth.World :=
  OAuth.mkWorld
    (fun _ => Throw (OAuth.Error (lit "OAuth flow was cancelled")))
    (fun _ => Return tt).

(** A provider that creates every account and sends every code. *)
Definition signsUp : SignUp.World :=
  SignUp.mkWorld (fun _ _ _ _ => Return tt) (fun _ => Return tt).

Definition signUpForm (first password : string) : SignUp.State :=
  SignUp.mkState (lit first) (lit "Lee") (lit "ann@fimpay.com")
    (lit password) false false.

End SampleForms.

(* ================================================================== *)
(** * Part II: properties *)
(* ================================================================== *)

(** Case analysis on the tests of a handler, closing each branch that
    leaves the state alone with [tac]. *)
Ltac by_cases tac :=
  repeat match goal with
         | |- context [if ?b then _ else _] => destruct b; try tac
         end.

(** ** Strings *)

Section Strings.
Import JS.

Lemma jseqb_eq (a b : jsstring) : eqb a b = true <-> a = b.
Proof.
  revert b; induction a as [|x a IH]; intros [|y b]; simpl;
    try (split; congruence).
  rewrite andb_true_iff, N.eqb_eq, IH. split.
  - intros [-> ->]; reflexivity.
  - intros [= -> ->]; split; reflexivity.
Qed.

Lemma jseqb_refl (a : jsstring) : eqb a a = true.
Proof. apply jseqb_eq; reflexivity. Qed.

Lemma trimStart_nil_iff (s : jsstring) :
  trimStart s = [] <-> forallb isWhiteSpace s = true.
Proof.
  induction s as [|c s IH]; simpl.
  - split; reflexivity.
  - destruct (isWhiteSpace c); simpl.
    + exact IH.
    + split; discriminate.
Qed.

(** What [trimStart] leaves does not start with white space. *)
Lemma trimStart_head (s : jsstring) (c : N) (r : jsstring) :
  trimStart s = c :: r -> isWhiteSpace c = false.
Proof.
  induction s as [|x s IH]; simpl; [discriminate|].
  destruct (isWhiteSpace x) eqn:E; [exact IH|].
  intros [= -> _]; exact E.
Qed.

Lemma trimStart_forallb (s : jsstring) :
  forallb isWhiteSpace (trimStart s) = true -> trimStart s = [].
Proof.
  destruct (trimStart s) as [|c r] eqn:E; [reflexivity|].
  simpl. rewrite (trimStart_head _ E). discriminate.
Qed.

Lemma forallb_rev (f : N -> bool) (s : jsstring) :
  forallb f (rev s) = forallb f s.
Proof.
  induction s as [|c s IH]; simpl; [reflexivity|].
  rewrite forallb_app, IH; simpl. rewrite andb_true_r. apply andb_comm.
Qed.

Lemma trimEnd_nil_iff (s : jsstring) :
  trimEnd s = [] <-> forallb isWhiteSpace s = true.
Proof.
  unfold trimEnd. rewrite <- (forallb_rev isWhiteSpace s).
  rewrite <- trimStart_nil_iff. split.
  - intros H. apply (f_equal (@rev N)) in H. rewrite rev_involutive in H.
    exact H.
  - intros ->; reflexivity.
Qed.

(** [trim] leaves nothing exactly of the strings that are all white
    space. *)
Lemma trim_nil_iff (s : jsstring) :
  trim s = [] <-> forallb isWhiteSpace s = true.
Proof.
  unfold trim. rewrite trimEnd_nil_iff. split.
  - intros H. apply trimStart_nil_iff, trimStart_forallb, H.
  - intros H. apply trimStart_nil_iff in H. rewrite H. reflexivity.
Qed.

(** A text has a character that is not white space exactly when its
    [trim] is truthy. *)
Lemma trim_truthy (s : jsstring) :
  truthy (Str (trim s)) = existsb (fun c => negb (isWhiteSpace c)) s.
Proof.
  destruct (forallb isWhiteSpace s) eqn:E.
  - assert (H := proj2 (trim_nil_iff s) E). rewrite H. simpl.
    symmetry. apply not_true_is_false. intros X.
    apply existsb_exists in X. destruct X as (c & Hc & Hn).
    rewrite forallb_forall in E. rewrite (E c Hc) in Hn. discriminate.
  - destruct (trim s) eqn:T.
    + apply trim_nil_iff in T. congruence.
    + simpl. symmetry.
      assert (~ forallb isWhiteSpace s = true) as H by congruence.
      clear E T. induction s as [|c s IH]; simpl in *; [congruence|].
      destruct (isWhiteSpace c); simpl in *; [apply IH, H | reflexivity].
Qed.

End Strings.

(** ** The network *)

Section NetworkSteps.
Import JS Chat.

(** The [try] block sends its request, once, and reads what the world
    answers to it. *)
Lemma fetchAIResponse_try_run (w : World) (request : Request)
  (sent : Network) :
  fetchAIResponse_try w request sent =
    (response <- fetch w request ;; fetchAIResponse_read w response,
     sent ++ [request]).
Proof.
  unfold fetchAIResponse_try, fetchWithTimeout, platformFetch.
  destruct (fetch w request); reflexivity.
Qed.

Lemma fetchAIResponseOn_run (endpoint : jsstring) (user : option User)
  (w : World) (now : Z) (prompt : jsstring) (sent : Network) :
  fetchAIResponseOn endpoint user w now prompt sent =
    if negb (truthy (Str endpoint)) then (Return (Str replyNotConfigured), sent)
    else
      (match (response <- fetch w (chatRequest user now prompt endpoint) ;;
              fetchAIResponse_read w response) with
       | Return reply => Return reply
       | Throw err => Return (Str (fetchAIResponse_catch err))
       end,
       sent ++ [chatRequest user now prompt endpoint]).
Proof.
  unfold fetchAIResponseOn.
  destruct (negb (truthy (Str endpoint))); [reflexivity|].
  rewrite fetchAIResponse_try_run. reflexivity.
Qed.

Lemma fetchAIResponseAt_run (endpoint : jsstring) (user : option User)
  (w : World) (now : Z) (prompt : jsstring) :
  fetchAIResponseAt endpoint user w now prompt =
    if negb (truthy (Str endpoint)) then ([], Return (Str replyNotConfigured))
    else
      ([chatRequest user now prompt endpoint],
       match (response <- fetch w (chatRequest user now prompt endpoint) ;;
              fetchAIResponse_read w response) with
       | Return reply => Return reply
       | Throw err => Return (Str (fetchAIResponse_catch err))
       end).
Proof.
  unfold fetchAIResponseAt, fetchAIResponseOn.
  destruct (negb (truthy (Str endpoint))); [reflexivity|].
  rewrite fetchAIResponse_try_run. reflexivity.
Qed.

End NetworkSteps.

(** ** The chat relay *)

Section ChatRelay.
Import JS Chat.
Local Open Scope Z_scope.

Variable user : option User.

(** [fetchAIResponse] never rejects: its [catch] turns every error of the
    [try] block into a reply. *)
Lemma fetchAIResponseAt_returns endpoint (w : World) now prompt :
  exists reply,
    snd (fetchAIResponseAt endpoint user w now prompt) = Return reply.
Proof.
  rewrite fetchAIResponseAt_run.
  destruct (negb (truthy (Str endpoint))); cbn [snd]; [eauto|].
  destruct (response <- fetch w _ ;; fetchAIResponse_read w response); eauto.
Qed.

(** The record a settled send appends is the assistant's, whatever the
    outcome. *)
Lemma settle_appends_assistant t1 t2 (outcome : result value) (st : State) :
  exists a,
    messages (handleSendMessage_settle t1 t2 outcome st) = messages st ++ [a]
    /\ isUser a = false
    /\ id a = toString (t1 + 1).
Proof.
  unfold handleSendMessage_settle; destruct outcome; simpl; eauto.
Qed.

(** The guard of [handleSendMessage] lets a send through exactly when the
    text has a character that is not white space and no send is in
    flight. *)
Lemma submit_guard t1 t2 (st : State) :
  existsb (fun c => negb (isWhiteSpace c)) (inputText st) = true ->
  isLoading st = false ->
  handleSendMessage_submit t1 t2 st =
    Some {| messages := messages st ++
              [{| id := toString t1; text := Str (trim (inputText st));
                  isUser := true; timestamp := t2 |}];
            inputText := [];
            isLoading := true;
            settingsVisible := settingsVisible st;
            clearChatVisible := clearChatVisible st |}.
Proof.
  intros Htext Hload. unfold handleSendMessage_submit.
  rewrite trim_truthy, Htext, Hload. reflexivity.
Qed.

(** C1.  A send of a text that is not all white space, while no send is in
    flight, appends exactly two records to the transcript: first the
    user's, holding the trimmed text, then one of the assistant, whatever
    the network does (any response, any rejection of the request).  The
    second half says the same of the two halves of the handler apart: the
    reply is appended to the transcript the screen has when the request
    settles, as one record of the assistant, for a returned reply and for a
    thrown error alike. *)
Theorem send_appends_user_then_assistant :
  forall (w : World) (clk : SendClock) (st : State),
    existsb (fun c => negb (isWhiteSpace c)) (inputText st) = true ->
    isLoading st = false ->
    (exists u a,
        messages (fst (handleSendMessage user w clk st))
          = messages st ++ [u; a]
        /\ isUser u = true
        /\ text u = Str (trim (inputText st))
        /\ isUser a = false
        /\ List.length (messages (fst (handleSendMessage user w clk st)))
           = (List.length (messages st) + 2)%nat
        /\ isLoading (fst (handleSendMessage user w clk st)) = false)
    /\ (exists st1 u,
          handleSendMessage_submit (t_user_id clk) (t_user_stamp clk) st
            = Some st1
          /\ messages st1 = messages st ++ [u] /\ isUser u = true)
    /\ (forall t1 t2 (outcome : result value) (st' : State),
          exists a,
            messages (handleSendMessage_settle t1 t2 outcome st')
              = messages st' ++ [a]
            /\ isUser a = false).
Proof.
  intros w clk st Htext Hload. split; [|split].
  - unfold handleSendMessage.
    rewrite (submit_guard _ _ st Htext Hload).
    destruct (fetchAIResponse user w (t_request clk) (inputText st))
      as [requests outcome].
    cbn [fst].
    destruct (settle_appends_assistant (t_reply_id clk) (t_reply_stamp clk)
                outcome
                {| messages := messages st ++
                     [{| id := toString (t_user_id clk);
                         text := Str (trim (inputText st));
                         isUser := true;
                         timestamp := t_user_stamp clk |}];
                   inputText := [];
                   isLoading := true;
                   settingsVisible := settingsVisible st;
                   clearChatVisible := clearChatVisible st |})
      as (a & Hm & Ha & _).
    eexists; exists a. rewrite Hm. cbn [messages].
    rewrite <- app_assoc. cbn [app].
    repeat split; try reflexivity; try exact Ha.
    rewrite length_app. reflexivity.
  - rewrite (submit_guard _ _ st Htext Hload).
    eexists; eexists; repeat split; reflexivity.
  - intros t1 t2 outcome st'.
    destruct (settle_appends_assistant t1 t2 outcome st') as (a & H1 & H2 & _).
    exists a; split; assumption.
Qed.

End ChatRelay.

Lemma send_appends_user_then_assistant_witness :
  (exists u a,
      Chat.messages
        (fst (Chat.handleSendMessage None
                (Sample.world (JS.Return (Sample.failed 429 [])))
                (Sample.clock 1000 1400) (Sample.typed "  hi ")))
        = Chat.messages (Sample.typed "  hi ") ++ [u; a]
      /\ Chat.isUser u = true
      /\ Chat.text u = JS.Str (JS.lit "hi")
      /\ Chat.isUser a = false).
Proof.
  destruct (@send_appends_user_then_assistant None
              (Sample.world (JS.Return (Sample.failed 429 [])))
              (Sample.clock 1000 1400) (Sample.typed "  hi ")
              eq_refl eq_refl) as [(u & a & H1 & H2 & H3 & H4 & _) _].
  exists u, a. repeat split; assumption.
Defined.

(** ** The reply of a successful response *)

Section ReplyShapes.
Import JS Chat.

Variable w : World.

Lemma read_truthy (v : value) (key : string) :
  truthy v = true -> read w v (lit key) = Return (field v key).
Proof. unfold read; destruct v; simpl; try discriminate; reflexivity. Qed.

Lemma read_body (data : value) (key : string) :
  data <> Null -> data <> Undefined ->
  read w data (lit key) = Return (field data key).
Proof. unfold read; destruct data; simpl; congruence. Qed.

Lemma readIndex0_truthy (v : value) :
  truthy v = true -> readIndex0 w v = Return (first v).
Proof.
  unfold readIndex0, first.
  destruct v as [| | | |s| |]; simpl; try discriminate; try reflexivity.
  destruct s; [discriminate | reflexivity].
Qed.

Lemma field_falsy (v : value) (key : string) :
  truthy v = false -> field v key = Undefined.
Proof. destruct v; simpl; try discriminate; reflexivity. Qed.

Lemma first_falsy (v : value) : truthy v = false -> first v = Undefined.
Proof.
  destruct v as [| | | |s| |]; simpl; try discriminate; try reflexivity.
  destruct s; [reflexivity | discriminate].
Qed.

(** The [&&] chains of the two [choices] branches come to a value that is
    truthy exactly when the path is, and is the path's value then. *)
Lemma choices0_chain (data : value) (key : string) :
  data <> Null -> data <> Undefined ->
  exists x,
    (choices <- read w data (lit "choices") ;;
     andThen choices
       (first <- readIndex0 w choices ;;
        andThen first (read w first (lit key)))) = Return x
    /\ truthy x = truthy (field (first (field data "choices")) key)
    /\ (truthy x = true -> x = field (first (field data "choices")) key).
Proof.
  intros Hn Hu. rewrite (read_body "choices" Hn Hu). cbn [bind].
  set (choices := field data "choices").
  unfold andThen at 1. destruct (truthy choices) eqn:Ec.
  - rewrite (readIndex0_truthy _ Ec). cbn [bind].
    unfold andThen. destruct (truthy (first choices)) eqn:Ef.
    + rewrite (read_truthy _ key Ef). eexists; repeat split.
    + exists (first choices). rewrite (field_falsy _ key Ef), Ef.
      repeat split. discriminate.
  - exists choices. rewrite (first_falsy _ Ec), Ec.
    repeat split. discriminate.
Qed.

(** The chain of [if]s of the source is the priority list: on a body that
    is not [null] it returns the first recognised shape, and on [null] the
    first read throws. *)
Lemma extractReply_replyOfBody (data : value) :
  extractReply w data =
    match data with
    | Undefined | Null => Throw (nullRead w (lit "reply"))
    | _ => Return (replyOfBody data)
    end.
Proof.
  assert (forall d, d <> Null -> d <> Undefined ->
                    extractReply w d = Return (replyOfBody d)) as H.
  { intros d Hn Hu. unfold extractReply, replyOfBody, shapes.
    rewrite !(read_body _ Hn Hu). cbn [bind find fst snd].
    destruct (truthy (field d "reply")); [reflexivity|].
    destruct (truthy (field d "message")); [reflexivity|].
    destruct (truthy (field d "output")); [reflexivity|].
    destruct (choices0_chain "text" Hn Hu) as (x & Hx & Ht & Hv).
    unfold choices0_text. rewrite Hx. cbn [bind]. rewrite <- Ht.
    destruct (truthy x); [rewrite Hv; reflexivity|].
    destruct (choices0_chain "message" Hn Hu) as (y & Hy & Hty & Hvy).
    unfold choices0_message. rewrite Hy. cbn [bind]. rewrite <- Hty.
    destruct (truthy y) eqn:Ey.
    - rewrite (read_truthy _ "content" Ey), Hvy; reflexivity.
    - destruct (truthy (field d "response")); [reflexivity|].
      destruct d; reflexivity. }
  destruct data; try (apply H; congruence); reflexivity.
Qed.

End ReplyShapes.

Section ChatReplies.
Import JS Chat.
Local Open Scope Z_scope.

Variable user : option User.
Variable w : World.
Variables (now : Z) (prompt : jsstring).

Let request := chatRequest user now prompt AI_API.

Lemma AI_API_truthy : truthy (Str AI_API) = true.
Proof. reflexivity. Qed.

Lemma fetchAIResponse_unfold :
  fetchAIResponse user w now prompt =
    ([request],
     match (response <- fetch w request ;; fetchAIResponse_read w response)
     with
     | Return reply => Return reply
     | Throw err => Return (Str (fetchAIResponse_catch err))
     end).
Proof. unfold fetchAIResponse. rewrite fetchAIResponseAt_run. reflexivity. Qed.

(** C2, as amended.  On a successful response whose body parses to a value
    other than [null], the reply is the first recognised shape in the
    priority order [reply], [message], [output], [choices[0].text],
    [choices[0].message] (whose [content] is returned), [response]; with
    none of them, a body that is a bare string is the reply, and any other
    body gets the fixed reply "I received your message but couldn't process
    the response format.", which does not depend on the input. *)
Theorem reply_of_successful_response :
  forall (response : Response) (data : value),
    fetch w request = Return response ->
    ok response = true ->
    response_json response = Return data ->
    data <> Null -> data <> Undefined ->
    snd (fetchAIResponse user w now prompt) = Return (replyOfBody data)
    /\ replyOfBody data =
         match find (fun shape => truthy (fst shape)) (shapes data) with
         | Some shape => snd shape
         | None =>
             match data with
             | Str _ => data
             | _ =>
                 Str (lit "I received your message but couldn't process the response format.")
             end
         end
    /\ map fst (shapes data) =
         [ field data "reply"; field data "message"; field data "output";
           field (first (field data "choices")) "text";
           field (first (field data "choices")) "message";
           field data "response" ].
Proof.
  intros response data Hf Hok Hj Hn Hu.
  rewrite fetchAIResponse_unfold. cbn [snd].
  rewrite Hf. cbn [bind]. unfold fetchAIResponse_read.
  rewrite Hok. cbn [negb]. rewrite Hj. cbn [bind].
  rewrite extractReply_replyOfBody.
  repeat split. destruct data; congruence.
Qed.

(** C5.  The replies of the failure paths are the fixed ones, to the
    letter: a response that is not [ok] and whose text can be read gets
    the reply of its status, 401, 429 or 500 and above; a rejected request
    whose error is named [AbortError], or whose message includes
    [timeout] or [abort], gets the timeout reply. *)
Theorem failure_replies_are_canned :
  (forall (response : Response) (errorText : jsstring),
      fetch w request = Return response ->
      ok response = false ->
      response_text response = Return errorText ->
      (status response = 401 ->
       snd (fetchAIResponse user w now prompt) =
         Return (Str (lit "I'm having trouble authenticating with the AI service. Please check your API configuration.")))
      /\ (status response = 429 ->
          snd (fetchAIResponse user w now prompt) =
            Return (Str (lit "I'm receiving too many requests right now. Please wait a moment and try again.")))
      /\ (500 <= status response ->
          snd (fetchAIResponse user w now prompt) =
            Return (Str (lit "The AI service is currently experiencing issues. Please try again later."))))
  /\ (forall err : error,
        fetch w request = Throw err ->
        name err = Some (lit "AbortError")
        \/ (exists m, message err = Some m
                      /\ (includes m (lit "timeout") = true
                          \/ includes m (lit "abort") = true)) ->
        snd (fetchAIResponse user w now prompt) =
          Return (Str (lit "The request took too long to complete. Please try again in a moment."))).
Proof.
  split.
  - intros response errorText Hf Hok Ht.
    rewrite fetchAIResponse_unfold. cbn [snd].
    rewrite Hf. cbn [bind]. unfold fetchAIResponse_read.
    rewrite Hok. cbn [negb]. rewrite Ht. cbn [bind].
    repeat split.
    + intros ->. reflexivity.
    + intros ->. reflexivity.
    + intros H.
      destruct (status response =? 401) eqn:E1; [apply Z.eqb_eq in E1; lia|].
      destruct (status response =? 429) eqn:E2; [apply Z.eqb_eq in E2; lia|].
      destruct (status response >=? 500) eqn:E3; [reflexivity|].
      rewrite Z.geb_leb in E3. apply Z.leb_gt in E3. lia.
  - intros err Hf Hc.
    rewrite fetchAIResponse_unfold. cbn [snd].
    rewrite Hf. cbn [bind]. unfold fetchAIResponse_read.
    unfold fetchAIResponse_catch, isAbortError, messageIncludes.
    destruct Hc as [-> | (m & -> & [-> | ->])].
    + rewrite jseqb_refl. reflexivity.
    + rewrite orb_true_r. reflexivity.
    + rewrite !orb_true_r. reflexivity.
Qed.

(** C10.  The endpoint constant is the literal text ["process.env.AI_API"],
    which is truthy, so [fetchAIResponse] never takes the branch of the
    missing configuration.  Whatever has gone out on the network before,
    one call of [fetchAIResponse] sends exactly one more request, through
    the platform's [fetch], and its url is that literal; the reply is read
    from what the world answers to that request.  A send that passes the
    guard of [handleSendMessage] sends exactly that one request.  For an
    endpoint constant in general, the call leaves the network as it was
    only if the constant is the empty text. *)
Theorem endpoint_is_a_literal :
  AI_API = lit "process.env.AI_API"
  /\ truthy (Str AI_API) = true
  /\ (forall sent : Network,
        snd (fetchAIResponseOn AI_API user w now prompt sent)
        = sent ++ [chatRequest user now prompt (lit "process.env.AI_API")])
  /\ fst (fetchAIResponse user w now prompt) =
       [chatRequest user now prompt (lit "process.env.AI_API")]
  /\ url (chatRequest user now prompt (lit "process.env.AI_API"))
       = lit "process.env.AI_API"
  /\ snd (fetchAIResponse user w now prompt) =
       match (response <- fetch w request ;; fetchAIResponse_read w response)
       with
       | Return reply => Return reply
       | Throw err => Return (Str (fetchAIResponse_catch err))
       end
  /\ (forall (clk : SendClock) (st : State),
        snd (handleSendMessage user w clk st) =
          match handleSendMessage_submit
                  (t_user_id clk) (t_user_stamp clk) st with
          | None => []
          | Some _ =>
              [chatRequest user (t_request clk) (inputText st)
                 (lit "process.env.AI_API")]
          end)
  /\ (forall (endpoint : jsstring) (sent : Network),
        snd (fetchAIResponseOn endpoint user w now prompt sent) = sent
        <-> endpoint = [])
  /\ (forall endpoint : jsstring,
        fetchAIResponseAt endpoint user w now prompt
          = ([], Return (Str replyNotConfigured))
        <-> endpoint = []).
Proof.
  split; [reflexivity|]. split; [reflexivity|].
  split; [intros sent; rewrite fetchAIResponseOn_run; reflexivity|].
  split; [rewrite fetchAIResponse_unfold; reflexivity|].
  split; [reflexivity|].
  split; [rewrite fetchAIResponse_unfold; reflexivity|].
  split; [|split].
  - intros clk st. unfold handleSendMessage.
    destruct (handleSendMessage_submit _ _ st); [|reflexivity].
    unfold fetchAIResponse. rewrite fetchAIResponseAt_run. reflexivity.
  - intros endpoint sent. rewrite fetchAIResponseOn_run. split.
    + destruct endpoint as [|c e]; [reflexivity|]. cbn [truthy negb snd].
      intros H. apply (f_equal (@List.length Request)) in H.
      rewrite length_app in H. cbn in H. lia.
    + intros ->. reflexivity.
  - intros endpoint. rewrite fetchAIResponseAt_run. split.
    + destruct endpoint; [reflexivity|]. cbn [truthy negb]. discriminate.
    + intros ->. reflexivity.
Qed.

End ChatReplies.

Lemma reply_of_successful_response_witness :
  snd (Chat.fetchAIResponse None
         (Sample.world
            (JS.Return
               (Sample.okJson
                  (JS.Obj [(JS.lit "message", JS.Str (JS.lit "second"));
                           (JS.lit "reply", JS.Str (JS.lit "first"))]))))
         0 (JS.lit "hi"))
  = JS.Return (JS.Str (JS.lit "first")).
Proof.
  refine (proj1 (@reply_of_successful_response None
            (Sample.world
               (JS.Return
                  (Sample.okJson
                     (JS.Obj [(JS.lit "message", JS.Str (JS.lit "second"));
                              (JS.lit "reply", JS.Str (JS.lit "first"))]))))
            0 (JS.lit "hi") _ _ eq_refl eq_refl eq_refl _ _));
    discriminate.
Defined.

(** C2, as stated, fails: a body with no recognised shape (the empty
    object) is answered with the fixed reply, the same for two different
    inputs, and not with the input. *)
Lemma echo_fallback_counterexample :
  find (fun shape => JS.truthy (fst shape)) (Chat.shapes (JS.Obj [])) = None
  /\ snd (Chat.fetchAIResponse None
            (Sample.world (JS.Return (Sample.okJson (JS.Obj []))))
            0 (JS.lit "hello"))
     = JS.Return (JS.Str Chat.replyBadFormat)
  /\ snd (Chat.fetchAIResponse None
            (Sample.world (JS.Return (Sample.okJson (JS.Obj []))))
            0 (JS.lit "good bye"))
     = JS.Return (JS.Str Chat.replyBadFormat)
  /\ JS.Str Chat.replyBadFormat <> JS.Str (JS.lit "hello")
  /\ JS.Str Chat.replyBadFormat <> JS.Str (JS.lit "good bye")
  /\ JS.Str Chat.replyBadFormat <> JS.Obj [].
Proof. repeat split; try reflexivity; discriminate. Qed.

(** A body of [null] has no recognised shape either; its first read
    throws, and the [catch] block answers (here with the generic reply,
    the engine's message having none of the tested words). *)
Lemma null_body_is_answered_by_catch :
  snd (Chat.fetchAIResponse None
         (Sample.world (JS.Return (Sample.okJson JS.Null)))
         0 (JS.lit "hello"))
  = JS.Return (JS.Str Chat.replyGeneric).
Proof. reflexivity. Qed.

(** The fifth shape is tested on [choices[0].message], not on its
    [content]: a message without content ends the chain with [undefined],
    before [response] is looked at. *)
Lemma message_without_content_ends_the_chain :
  snd (Chat.fetchAIResponse None
         (Sample.world
            (JS.Return
               (Sample.okJson
                  (JS.Obj
                     [(JS.lit "choices",
                       JS.Arr [JS.Obj [(JS.lit "message", JS.Obj [])]]);
                      (JS.lit "response", JS.Str (JS.lit "late"))]))))
         0 (JS.lit "hello"))
  = JS.Return JS.Undefined.
Proof. reflexivity. Qed.

Lemma failure_replies_are_canned_witness :
  snd (Chat.fetchAIResponse None
         (Sample.world (JS.Return (Sample.failed 429 (JS.lit "slow down"))))
         0 (JS.lit "hi"))
  = JS.Return (JS.Str (JS.lit "I'm receiving too many requests right now. Please wait a moment and try again."))
  /\ snd (Chat.fetchAIResponse None
            (Sample.world (JS.Throw Sample.aborted)) 0 (JS.lit "hi"))
     = JS.Return (JS.Str (JS.lit "The request took too long to complete. Please try again in a moment.")).
Proof.
  split.
  - exact (proj1 (proj2
      (proj1 (@failure_replies_are_canned None
                (Sample.world
                   (JS.Return (Sample.failed 429 (JS.lit "slow down"))))
                0 (JS.lit "hi"))
         (Sample.failed 429 (JS.lit "slow down")) (JS.lit "slow down")
         eq_refl eq_refl eq_refl)) eq_refl).
  - exact (proj2 (@failure_replies_are_canned None
                    (Sample.world (JS.Throw Sample.aborted)) 0 (JS.lit "hi"))
             Sample.aborted eq_refl (or_introl eq_refl)).
Defined.

Section Transcript.
Import JS Chat.
Local Open Scope Z_scope.

Variable user : option User.

(** C6.  Confirming the clear leaves exactly one record in the transcript,
    whatever it held: the greeting, authored by the assistant. *)
Theorem clear_leaves_the_greeting :
  forall (now : Z) (st : State),
    messages (confirmClearChat user now st) = [greeting user now]
    /\ List.length (messages (confirmClearChat user now st)) = 1%nat
    /\ isUser (greeting user now) = false
    /\ text (greeting user now) =
         Str (lit "Hello " ++ userFirstName user ++ lit " "
              ++ userLastName user ++ lit "! " ++ [240; 376; 8216; 8249]%N
              ++ lit " I'm your AI assistant. How can I help you today?")
    /\ messages (confirmClearChat user now st) = messages (initialState user now).
Proof. intros now st. repeat split. Qed.

End Transcript.

(** ** The ids of the transcript *)

Section Ids.
Import JS Chat.
Local Open Scope Z_scope.

Lemma lit_inj (a b : string) : lit a = lit b -> a = b.
Proof.
  unfold lit. intros H.
  rewrite <- (string_of_list_ascii_of_string a),
          <- (string_of_list_ascii_of_string b).
  f_equal. revert H.
  generalize (list_ascii_of_string a) (list_ascii_of_string b).
  intros l; induction l as [|x l IH]; intros [|y l']; simpl;
    try discriminate; [reflexivity|].
  intros [= Hxy Hl]. f_equal; [|apply IH, Hl].
  rewrite <- (ascii_N_embedding x), <- (ascii_N_embedding y), Hxy.
  reflexivity.
Qed.

Lemma to_int_proper (z : Z) :
  Z.to_int z <> Decimal.Pos Decimal.Nil
  /\ Z.to_int z <> Decimal.Neg Decimal.Nil.
Proof.
  destruct z as [|p|p]; simpl; split; try discriminate;
    intros [= H]; exact (DecimalPos.Unsigned.to_uint_nonnil p H).
Qed.

(** Two integers with the same decimal are the same. *)
Lemma toString_inj (a b : Z) : toString a = toString b -> a = b.
Proof.
  unfold toString. intros H. apply lit_inj in H.
  assert (Some (Z.to_int a) = Some (Z.to_int b)) as E.
  { destruct (to_int_proper a) as [A1 A2], (to_int_proper b) as [B1 B2].
    rewrite <- (NilZero.isi _ A1 A2), <- (NilZero.isi _ B1 B2), H.
    reflexivity. }
  injection E as E.
  rewrite <- (DecimalZ.of_to a), <- (DecimalZ.of_to b), E. reflexivity.
Qed.

Variable user : option User.

Lemma idsUpTo_weaken (high high' : Z) (st : State) :
  high <= high' -> idsUpTo high st -> idsUpTo high' st.
Proof.
  intros Hle H. unfold idsUpTo in *.
  eapply Forall_impl; [|exact H].
  intros m (z & Hz & Hid). exists z. split; [lia | exact Hid].
Qed.

Lemma idsUpTo_fresh (high t : Z) (st : State) :
  idsUpTo high st -> high < t -> ~ In (toString t) (map id (messages st)).
Proof.
  intros H Ht Hin. apply in_map_iff in Hin as (m & Hm & Hin).
  unfold idsUpTo in H. rewrite Forall_forall in H.
  destruct (H m Hin) as (z & Hz & Hid).
  rewrite Hid in Hm. apply toString_inj in Hm. lia.
Qed.

(** One event of a spaced run keeps the ids apart. *)
Lemma step_keeps_ids_apart (high : Z) (st : State) (e : event) :
  1 <= high ->
  NoDup (map id (messages st)) -> idsUpTo high st ->
  match e with
  | PressSend _ clk =>
      high < t_user_id clk /\ t_user_id clk <= t_reply_id clk
  | _ => True
  end ->
  NoDup (map id (messages (step user st e)))
  /\ idsUpTo
       match e with
       | PressSend _ clk => t_reply_id clk + 1
       | _ => high
       end
       (step user st e).
Proof.
  intros H1 Hnd Hup He. destruct e as [t|w clk|now]; cbn [step].
  - destruct (isLoading st); split; assumption.
  - destruct He as [Hlt Hle]. unfold handleSendMessage.
    destruct (handleSendMessage_submit (t_user_id clk) (t_user_stamp clk) st)
      as [st1|] eqn:Es.
    + unfold handleSendMessage_submit in Es.
      destruct (negb (truthy (Str (trim (inputText st)))) || isLoading st);
        [discriminate|].
      injection Es as <-.
      destruct (fetchAIResponse user w (t_request clk) (inputText st))
        as [requests outcome].
      cbn [fst].
      assert (exists x,
                 messages
                   (handleSendMessage_settle (t_reply_id clk)
                      (t_reply_stamp clk) outcome
                      {| messages := messages st ++
                           [{| id := toString (t_user_id clk);
                               text := Str (trim (inputText st));
                               isUser := true;
                               timestamp := t_user_stamp clk |}];
                         inputText := [];
                         isLoading := true;
                         settingsVisible := settingsVisible st;
                         clearChatVisible := clearChatVisible st |})
                 = messages st ++
                     [{| id := toString (t_user_id clk);
                         text := Str (trim (inputText st));
                         isUser := true;
                         timestamp := t_user_stamp clk |};
                      {| id := toString (t_reply_id clk + 1);
                         text := x;
                         isUser := false;
                         timestamp := t_reply_stamp clk |}]) as (x & Hx).
      { destruct outcome as [r|err]; eexists; cbn [handleSendMessage_settle
          messages]; rewrite <- app_assoc; reflexivity. }
      unfold idsUpTo. rewrite Hx. split.
      * rewrite map_app. apply NoDup_app; [exact Hnd | |].
        -- cbn [map id]. constructor.
           ++ intros [E|[]]. apply toString_inj in E. lia.
           ++ constructor; [intros [] | constructor].
        -- intros a Ha [<-|[<-|[]]]; revert Ha.
           ++ apply (idsUpTo_fresh Hup). lia.
           ++ apply (idsUpTo_fresh Hup). lia.
      * apply Forall_app. split.
        -- apply (@idsUpTo_weaken high); [lia | exact Hup].
        -- repeat constructor.
           ++ exists (t_user_id clk). cbn [id]. split; [lia | reflexivity].
           ++ exists (t_reply_id clk + 1). cbn [id].
              split; [lia | reflexivity].
    + cbn [fst]. split; [exact Hnd|].
      apply (@idsUpTo_weaken high); [lia | exact Hup].
  - split.
    + cbn. constructor; [intros [] | constructor].
    + unfold idsUpTo. cbn. constructor; [|constructor].
      exists 1. split; [lia | reflexivity].
Qed.

(** The ids of a transcript stay apart along a spaced run. *)
Lemma spaced_run_keeps_ids_apart (es : list event) :
  forall (high : Z) (st : State),
    1 <= high ->
    NoDup (map id (messages st)) -> idsUpTo high st ->
    spaced high es ->
    NoDup (map id (messages (run user st es))).
Proof.
  induction es as [|e es IH]; intros high st H1 Hnd Hup Hsp;
    [exact Hnd|].
  cbn [run fold_left].
  destruct e as [t|w clk|now].
  - destruct (@step_keeps_ids_apart high st (ChangeText t) H1 Hnd Hup I)
      as [Hn Hu].
    exact (IH high _ H1 Hn Hu Hsp).
  - destruct Hsp as (Hlt & Hle & Hsp).
    destruct (@step_keeps_ids_apart high st (PressSend w clk) H1 Hnd Hup
                (conj Hlt Hle)) as [Hn Hu].
    apply (IH (t_reply_id clk + 1) _); [lia | exact Hn | exact Hu | exact Hsp].
  - destruct (@step_keeps_ids_apart high st (ConfirmClear now) H1 Hnd Hup I)
      as [Hn Hu].
    exact (IH high _ H1 Hn Hu Hsp).
Qed.

(** From the first screen, the ids are pairwise distinct as long as every
    send is pressed at an instant above 1 and above the instant of the
    last reply plus one. *)
Lemma spaced_sends_have_distinct_ids (now : Z) (es : list event) :
  spaced 1 es ->
  NoDup (map id (messages (run user (initialState user now) es))).
Proof.
  apply spaced_run_keeps_ids_apart.
  - lia.
  - cbn. constructor; [intros [] | constructor].
  - unfold idsUpTo. cbn. constructor; [|constructor].
    exists 1. split; [lia | reflexivity].
Qed.

End Ids.

(** C7 fails on the code.  A reply that arrives at the instant 1000 gets
    the id ["1001"]; a send pressed at the instant 1001 gets the same id.
    The clock of this run never goes back and never stands still between
    two sends. *)
Lemma ids_collide :
  let w := Sample.world (JS.Return (Sample.okJson (JS.Obj []))) in
  let st :=
    Chat.run None (Chat.initialState None 0)
      [Chat.ChangeText (JS.lit "a");
       Chat.PressSend w (Sample.clock 999 1000);
       Chat.ChangeText (JS.lit "b");
       Chat.PressSend w (Sample.clock 1001 1002)] in
  map Chat.id (Chat.messages st)
    = [JS.lit "1"; JS.lit "999"; JS.lit "1001"; JS.lit "1001"; JS.lit "1003"]
  /\ map Chat.isUser (Chat.messages st) = [false; true; false; true; false]
  /\ ~ NoDup (map Chat.id (Chat.messages st)).
Proof.
  cbv zeta. split; [reflexivity|]. split; [reflexivity|].
  intros H.
  change (NoDup [JS.lit "1"; JS.lit "999"; JS.lit "1001"; JS.lit "1001";
                 JS.lit "1003"]) in H.
  apply NoDup_cons_iff in H as [_ H].
  apply NoDup_cons_iff in H as [_ H].
  apply NoDup_cons_iff in H as [Hin _].
  apply Hin. left. reflexivity.
Qed.

(** ** The verification code *)

Section VerificationCode.
Import JS UI VerifyEmail.
Local Open Scope Z_scope.

Lemma sanitize_digits (text : jsstring) :
  forallb isDigit (sanitize text) = true.
Proof.
  unfold sanitize. apply forallb_forall. intros c Hc.
  assert (In c (filter isDigit text)) as H.
  { rewrite <- (firstn_skipn 6 (filter isDigit text)).
    apply in_or_app. left. exact Hc. }
  apply filter_In in H. apply H.
Qed.

(** Every state the screen reaches holds a code made of digits only: the
    code is written by [onChangeText] alone. *)
Lemma step_keeps_digits (st : State) (e : event) :
  forallb isDigit (code st) = true ->
  forallb isDigit (code (step st e)) = true.
Proof.
  intros H. destruct e as [text|h w|h|outcome|]; simpl.
  - unfold onChangeText. destruct (isLoading st); [exact H|].
    apply sanitize_digits.
  - unfold handleVerify.
    destruct (isLoaded h), (signUp h); try exact H.
    by_cases ltac:(exact H).
    destruct (handleVerify_try h w st) as [[v effects] [u|err]]; exact H.
  - unfold pressResend. destruct (resendDisabled st); [exact H|].
    unfold handleResendCode_start.
    destruct (isLoaded h), (signUp h); try exact H.
    by_cases ltac:(exact H).
  - destruct (isResending st); [|exact H].
    destruct outcome; exact H.
  - unfold tick. destruct (0 <? resendCooldown st); exact H.
Qed.

Lemma reachable_code_digits (es : list event) (st : State) :
  forallb isDigit (code st) = true ->
  forallb isDigit (code (run st es)) = true.
Proof.
  revert st; induction es as [|e es IH]; intros st H; simpl; [exact H|].
  apply IH, step_keeps_digits, H.
Qed.

(** C3.  In every state the screen reaches, a code that is not six digits
    makes [handleVerify] stop at one of its four alerts, with the state
    unchanged and no call into the identity provider: the verification is
    not attempted. *)
Theorem verify_rejects_malformed_code :
  forall (es : list event) (h : Hook) (w : World),
    matchesSixDigits (code (run initialState es)) = false ->
    exists m,
      handleVerify h w (run initialState es)
        = (run initialState es, [Alert (lit "Error") m []])
      /\ In m [msgSystemNotReady; msgCannotVerify; msgEnterCode; msgSixDigits]
      /\ m <> []
      /\ calls (snd (handleVerify h w (run initialState es))) = []
      /\ ~ In (Call (AttemptEmailAddressVerification
                       (trim (code (run initialState es)))))
              (snd (handleVerify h w (run initialState es))).
Proof.
  intros es h w Hbad.
  assert (forallb isDigit (code (run initialState es)) = true) as Hd
    by (apply reachable_code_digits; reflexivity).
  set (st := run initialState es) in *.
  unfold matchesSixDigits in Hbad. rewrite Hd, andb_true_r in Hbad.
  apply Nat.eqb_neq in Hbad.
  assert ((Z.of_nat (List.length (code st)) =? 6) = false) as Hlen
    by (apply Z.eqb_neq; lia).
  assert (exists m,
             handleVerify h w st = (st, [Alert (lit "Error") m []])
             /\ In m [msgSystemNotReady; msgCannotVerify; msgEnterCode;
                      msgSixDigits]) as (m & Hm & Hin).
  { unfold handleVerify.
    destruct (isLoaded h), (signUp h) as [su|];
      try (exists msgSystemNotReady; split; [reflexivity | simpl; tauto]).
    destruct (negb (eqb (status su) (lit "missing_requirements")));
      [exists msgCannotVerify; split; [reflexivity | simpl; tauto]|].
    destruct (negb (truthy (Str (trim (code st)))));
      [exists msgEnterCode; split; [reflexivity | simpl; tauto]|].
    rewrite Hlen. exists msgSixDigits; split; [reflexivity | simpl; tauto]. }
  exists m. rewrite Hm. repeat split; try assumption.
  - simpl in Hin.
    destruct Hin as [<-|[<-|[<-|[<-|[]]]]]; discriminate.
  - simpl. intros [H|[]]. discriminate.
Qed.

(** The handler alone tests that the code is not empty and has six
    characters; that the six are digits is the work of [onChangeText]. *)
Lemma handleVerify_counts_characters (h : Hook) (w : World) (st : State) :
  isLoaded h = true ->
  (exists su, signUp h = Some su /\ status su = lit "missing_requirements") ->
  trim (code st) <> [] ->
  List.length (code st) = 6%nat ->
  exists rest,
    snd (handleVerify h w st)
      = Call (AttemptEmailAddressVerification (trim (code st))) :: rest.
Proof.
  intros Hl (su & Hs & Hst) Ht Hn. unfold handleVerify.
  rewrite Hl, Hs, Hst, jseqb_refl. cbn [negb].
  destruct (trim (code st)) as [|c r] eqn:E; [congruence|]. cbn [truthy negb].
  rewrite Hn. cbn [Z.of_nat Pos.of_succ_nat Pos.succ Z.eqb Pos.eqb negb].
  unfold handleVerify_try. rewrite E.
  destruct (attemptEmailAddressVerification w (c :: r)) as [a|e];
    [|simpl; eauto].
  destruct (eqb (attempt_status a) (lit "complete")); [|simpl; eauto].
  destruct (setActive h), (createdSessionId a) as [[|x s]|]; simpl; eauto.
  destruct (activate w (x :: s)); simpl; eauto.
Qed.

End VerificationCode.

Lemma verify_rejects_malformed_code_witness :
  exists m,
    VerifyEmail.handleVerify
      (VerifyEmail.mkHook true
         (Some (VerifyEmail.mkSignUp (JS.lit "missing_requirements") None))
         true)
      (VerifyEmail.mkWorld
         (fun _ => JS.Return (VerifyEmail.mkAttempt (JS.lit "complete") None))
         (fun _ => JS.Return tt) (fun _ => JS.Return tt))
      (VerifyEmail.run VerifyEmail.initialState
         [VerifyEmail.ChangeText (JS.lit "12a45 ")])
    = (VerifyEmail.run VerifyEmail.initialState
         [VerifyEmail.ChangeText (JS.lit "12a45 ")],
       [UI.Alert (JS.lit "Error") m []])
    /\ m <> [].
Proof.
  destruct (@verify_rejects_malformed_code
              [VerifyEmail.ChangeText (JS.lit "12a45 ")]
              (VerifyEmail.mkHook true
                 (Some (VerifyEmail.mkSignUp (JS.lit "missing_requirements")
                          None))
                 true)
              (VerifyEmail.mkWorld
                 (fun _ =>
                    JS.Return (VerifyEmail.mkAttempt (JS.lit "complete") None))
                 (fun _ => JS.Return tt) (fun _ => JS.Return tt))
              eq_refl) as (m & H1 & _ & H2 & _).
  exists m. split; assumption.
Defined.

(** ** The resend cooldown *)

Section Cooldown.
Import JS UI VerifyEmail.
Local Open Scope Z_scope.

Lemma tick_cooldown (st : State) :
  resendCooldown (tick st) =
    if 0 <? resendCooldown st then resendCooldown st - 1
    else resendCooldown st.
Proof. unfold tick. destruct (0 <? resendCooldown st); reflexivity. Qed.

Lemma tick_isResending (st : State) : isResending (tick st) = isResending st.
Proof. unfold tick. destruct (0 <? resendCooldown st); reflexivity. Qed.

(** Counting down from a counter that is not negative. *)
Lemma ticks_cooldown (n : nat) (st : State) :
  0 <= resendCooldown st ->
  resendCooldown (Nat.iter n tick st)
    = Z.max 0 (resendCooldown st - Z.of_nat n).
Proof.
  intros H0. induction n as [|n IH].
  - simpl. lia.
  - change (Nat.iter (S n) tick st) with (tick (Nat.iter n tick st)).
    rewrite tick_cooldown, IH.
    destruct (0 <? Z.max 0 (resendCooldown st - Z.of_nat n)) eqn:E.
    + apply Z.ltb_lt in E. lia.
    + apply Z.ltb_ge in E. lia.
Qed.

Lemma ticks_isResending (n : nat) (st : State) :
  isResending (Nat.iter n tick st) = isResending st.
Proof.
  induction n as [|n IH]; [reflexivity|].
  change (Nat.iter (S n) tick st) with (tick (Nat.iter n tick st)).
  rewrite tick_isResending. exact IH.
Qed.

(** The counter of every state the screen reaches lies between 0 and 30. *)
Lemma step_cooldown_range (st : State) (e : event) :
  0 <= resendCooldown st <= 30 ->
  0 <= resendCooldown (step st e) <= 30.
Proof.
  intros H. destruct e as [text|h w|h|outcome|]; simpl.
  - unfold onChangeText. destruct (isLoading st); exact H.
  - unfold handleVerify.
    destruct (isLoaded h), (signUp h); try exact H.
    by_cases ltac:(exact H).
    destruct (handleVerify_try h w st) as [[v effects] [u|err]]; exact H.
  - unfold pressResend. destruct (resendDisabled st); [exact H|].
    unfold handleResendCode_start.
    destruct (isLoaded h), (signUp h); try exact H.
    by_cases ltac:(exact H).
  - destruct (isResending st); [|exact H].
    destruct outcome; simpl; [lia | exact H].
  - rewrite tick_cooldown.
    destruct (0 <? resendCooldown st) eqn:E; [|exact H].
    apply Z.ltb_lt in E. lia.
Qed.

Lemma reachable_cooldown_range (es : list event) (st : State) :
  0 <= resendCooldown st <= 30 ->
  0 <= resendCooldown (run st es) <= 30.
Proof.
  revert st; induction es as [|e es IH]; intros st H; simpl; [exact H|].
  apply IH, step_cooldown_range, H.
Qed.

(** C4.  A press on the resend button while the counter is above 0 or a
    resend is in flight changes nothing and calls nothing (and the handler
    itself returns at once while the counter is above 0); a resend that
    succeeds sets the counter to 30 and ends the flight; a tick takes 1
    from a counter above 0 and leaves a counter at 0 alone, so the counter
    is never negative; [n] ticks after a successful resend the counter is
    [max 0 (30 - n)] and the button is disabled exactly while [n < 30],
    that is, until the counter is 0. *)
Theorem resend_cooldown :
  (forall (h : Hook) (st : State),
      0 < resendCooldown st \/ isResending st = true ->
      pressResend h st = (st, []))
  /\ (forall (h : Hook) (st : State),
        0 < resendCooldown st -> handleResendCode_start h st = (st, []))
  /\ (forall (st : State) (u : unit),
        resendCooldown (fst (handleResendCode_settle (Return u) st)) = 30
        /\ isResending (fst (handleResendCode_settle (Return u) st)) = false)
  /\ (forall st : State,
        0 < resendCooldown st ->
        resendCooldown (tick st) = resendCooldown st - 1)
  /\ (forall st : State, resendCooldown st <= 0 -> tick st = st)
  /\ (forall es : list event,
        0 <= resendCooldown (run initialState es) <= 30)
  /\ (forall (st : State) (u : unit) (n : nat),
        resendCooldown
          (Nat.iter n tick (fst (handleResendCode_settle (Return u) st)))
          = Z.max 0 (30 - Z.of_nat n)
        /\ resendDisabled
             (Nat.iter n tick (fst (handleResendCode_settle (Return u) st)))
           = (Z.of_nat n <? 30)
        /\ (resendDisabled
              (Nat.iter n tick (fst (handleResendCode_settle (Return u) st)))
            = false
            <-> resendCooldown
                  (Nat.iter n tick
                     (fst (handleResendCode_settle (Return u) st))) = 0)).
Proof.
  repeat apply conj.
  - intros h st H. unfold pressResend, resendDisabled.
    destruct H as [H | ->]; [|reflexivity].
    apply Z.ltb_lt in H. rewrite H, orb_true_r. reflexivity.
  - intros h st H. unfold handleResendCode_start.
    apply Z.ltb_lt in H. rewrite H.
    destruct (isLoaded h), (signUp h); reflexivity.
  - intros st u. split; reflexivity.
  - intros st H. rewrite tick_cooldown.
    apply Z.ltb_lt in H. rewrite H. reflexivity.
  - intros st H. unfold tick.
    destruct (0 <? resendCooldown st) eqn:E; [|reflexivity].
    apply Z.ltb_lt in E. lia.
  - intros es. apply reachable_cooldown_range. simpl. lia.
  - intros st u n.
    set (st30 := fst (handleResendCode_settle (Return u) st)).
    assert (resendCooldown (Nat.iter n tick st30)
            = Z.max 0 (30 - Z.of_nat n)) as Hc.
    { rewrite ticks_cooldown by (simpl; lia). reflexivity. }
    assert (resendDisabled (Nat.iter n tick st30) = (Z.of_nat n <? 30))
      as Hd.
    { unfold resendDisabled. rewrite ticks_isResending, Hc.
      change (isResending st30) with false. cbn [orb].
      destruct (Z.of_nat n <? 30) eqn:E.
      - apply Z.ltb_lt in E. apply Z.ltb_lt. lia.
      - apply Z.ltb_ge in E. apply Z.ltb_ge. lia. }
    split; [exact Hc|]. split; [exact Hd|].
    rewrite Hd, Hc. rewrite Z.ltb_ge. lia.
Qed.

(** The handler alone tests the counter only; that no second resend starts
    while one is in flight is the work of the button's [disabled]. *)
Lemma handleResendCode_tests_the_counter_only (h : Hook) (st : State) :
  isLoaded h = true ->
  (exists su, signUp h = Some su /\ status su <> lit "complete") ->
  resendCooldown st <= 0 ->
  snd (handleResendCode_start h st)
    = [Call (PrepareEmailAddressVerification (lit "email_code"))].
Proof.
  intros Hl (su & Hs & Hst) Hc. unfold handleResendCode_start.
  rewrite Hl, Hs.
  destruct (0 <? resendCooldown st) eqn:E; [apply Z.ltb_lt in E; lia|].
  destruct (eqb (status su) (lit "complete")) eqn:Ec; [|reflexivity].
  apply jseqb_eq in Ec. congruence.
Qed.

End Cooldown.

Lemma resend_cooldown_witness :
  VerifyEmail.pressResend
    (VerifyEmail.mkHook true
       (Some (VerifyEmail.mkSignUp (JS.lit "missing_requirements") None))
       true)
    (VerifyEmail.run VerifyEmail.initialState
       [VerifyEmail.PressResend
          (VerifyEmail.mkHook true
             (Some (VerifyEmail.mkSignUp (JS.lit "missing_requirements")
                      None))
             true);
        VerifyEmail.ResendSettles (JS.Return tt);
        VerifyEmail.Tick])
  = (VerifyEmail.run VerifyEmail.initialState
       [VerifyEmail.PressResend
          (VerifyEmail.mkHook true
             (Some (VerifyEmail.mkSignUp (JS.lit "missing_requirements")
                      None))
             true);
        VerifyEmail.ResendSettles (JS.Return tt);
        VerifyEmail.Tick],
     []).
Proof.
  apply (proj1 resend_cooldown). left. reflexivity.
Defined.

(** ** Sign-in validation *)

Section SignInValidation.
Import JS UI SignIn.

Lemma includes_nonempty (s sub : jsstring) :
  includes s sub = true -> sub <> [] -> s <> [].
Proof. intros H Hsub ->. destruct sub; [congruence | discriminate]. Qed.

(** Whatever the state of the SDK, a submission whose email holds a space
    and whose password is not empty makes no call into the provider. *)
Lemma space_in_email_calls_nothing (h : Hook) (w : World) (st : State) :
  includes (email st) (lit " ") = true ->
  password st <> [] ->
  calls (snd (handleSubmit h w st)) = [].
Proof.
  intros Hsp Hpw. unfold handleSubmit.
  destruct (negb (isLoaded h) || negb (setActive h)); [reflexivity|].
  destruct (negb (truthy (Str (email st)))
            || negb (truthy (Str (password st)))); [reflexivity|].
  rewrite Hsp. reflexivity.
Qed.

(** C8.  With the form on the screen (the SDK loaded, [setActive] at
    hand), a submission whose email holds a space and whose password is not
    empty stops at the alert "Email and password cannot contain spaces",
    with the state unchanged and no call of [signIn.create]. *)
Theorem sign_in_rejects_spaces :
  forall (h : Hook) (w : World) (st : State),
    isLoaded h = true ->
    setActive h = true ->
    includes (email st) (lit " ") = true ->
    password st <> [] ->
    handleSubmit h w st =
      (st, [Alert (lit "Error")
              (lit "Email and password cannot contain spaces") []])
    /\ calls (snd (handleSubmit h w st)) = []
    /\ (forall identifier pw : jsstring,
          ~ In (Call (SignInCreate identifier pw))
               (snd (handleSubmit h w st))).
Proof.
  intros h w st Hl Ha Hsp Hpw.
  assert (handleSubmit h w st =
            (st, [Alert (lit "Error")
                    (lit "Email and password cannot contain spaces") []]))
    as H.
  { unfold handleSubmit. rewrite Hl, Ha. cbn [negb orb].
    assert (email st <> []) as He
      by (apply (includes_nonempty Hsp); discriminate).
    destruct (email st) as [|c e]; [congruence|].
    destruct (password st) as [|p q]; [congruence|].
    cbn [truthy negb orb]. rewrite Hsp. reflexivity. }
  rewrite H. repeat split.
  intros identifier pw [X|[]]. discriminate.
Qed.

End SignInValidation.

Lemma sign_in_rejects_spaces_witness :
  SignIn.handleSubmit
    (SignIn.mkHook true true)
    (SignIn.mkWorld
       (fun _ _ => JS.Return (SignIn.mkResult (JS.lit "complete") None))
       (fun _ => JS.Return tt))
    (SignIn.mkState (JS.lit "a b@x.com") (JS.lit "secret1") false false)
  = (SignIn.mkState (JS.lit "a b@x.com") (JS.lit "secret1") false false,
     [UI.Alert (JS.lit "Error")
        (JS.lit "Email and password cannot contain spaces") []]).
Proof.
  refine (proj1 (@sign_in_rejects_spaces
                   (SignIn.mkHook true true)
                   (SignIn.mkWorld
                      (fun _ _ =>
                         JS.Return (SignIn.mkResult (JS.lit "complete") None))
                      (fun _ => JS.Return tt))
                   (SignIn.mkState (JS.lit "a b@x.com") (JS.lit "secret1")
                      false false)
                   eq_refl eq_refl eq_refl _)).
  discriminate.
Defined.

(** ** The account actions *)

Section AccountActions.
Import JS UI Profile.

(** C9.  Confirming the deletion shows the alert of success and closes the
    settings, and calls nothing of the identity provider; the one call
    that can follow is the [signOut] behind the alert's OK button.  No
    call that deletes or changes the account is among them. *)
Theorem delete_account_only_signs_out :
  forall st : State,
    confirmDeleteAccount st =
      ({| settingsVisible := false; deleteAccountVisible := false |},
       [Alert (lit "Account Deletion Initiated")
          (lit "Your account deletion has been done. Any remaining balance of $2,458.75 will be transferred to your registered bank account within 3-5 business days.")
          [(lit "OK", PressCall SignOut)]])
    /\ calls (snd (confirmDeleteAccount st)) = []
    /\ calls (flat_map withButtons (snd (confirmDeleteAccount st)))
       = [Call SignOut]
    /\ (forall c : ProviderCall,
          In (Call c) (flat_map withButtons (snd (confirmDeleteAccount st)))
          -> c = SignOut).
Proof.
  intros st. repeat split.
  intros c [H|[H|[]]]; [discriminate | congruence].
Qed.

End AccountActions.

Lemma delete_account_only_signs_out_witness :
  UI.calls
    (flat_map Profile.withButtons
       (snd (Profile.confirmDeleteAccount (Profile.mkState true true))))
  = [UI.Call UI.SignOut]
  /\ UI.SignOut = UI.SignOut.
Proof.
  split.
  - exact (proj1 (proj2 (proj2
             (delete_account_only_signs_out (Profile.mkState true true))))).
  - apply (proj2 (proj2 (proj2
             (delete_account_only_signs_out (Profile.mkState true true))))).
    right. left. reflexivity.
Defined.

(* ================================================================== *)
(** * Part III: further properties of the handlers *)
(* ================================================================== *)

(** ** Substrings *)

Section Substrings.
Import JS.

Lemma startsWith_spec (p s : jsstring) :
  startsWith s p = true <-> exists b, s = p ++ b.
Proof.
  revert s; induction p as [|y p IH]; intros s; simpl.
  - destruct s; split; eauto.
  - destruct s as [|x s]; simpl.
    + split; [discriminate | intros (b & H); discriminate].
    + rewrite andb_true_iff, N.eqb_eq, IH. split.
      * intros (-> & b & ->). eauto.
      * intros (b & [= -> ->]). eauto.
Qed.

(** [s.includes(sub)] holds exactly when [sub] lies somewhere in [s]. *)
Lemma includes_spec (s sub : jsstring) :
  includes s sub = true <-> exists a b, s = a ++ sub ++ b.
Proof.
  induction s as [|x s IH]; cbn [includes].
  - rewrite orb_false_r, startsWith_spec. split.
    + intros (b & H). exists [], b. exact H.
    + intros (a & b & H). destruct a; [eauto|discriminate].
  - rewrite orb_true_iff, IH.
    rewrite (startsWith_spec sub (x :: s)). split.
    + intros [(b & H) | (a & b & H)].
      * exists [], b. exact H.
      * exists (x :: a), b. rewrite H. reflexivity.
    + intros (a & b & H). destruct a as [|y a].
      * left. exists b. exact H.
      * right. injection H as _ H. eauto.
Qed.

Lemma includes_app_r (p s sub : jsstring) :
  includes s sub = true -> includes (p ++ s) sub = true.
Proof.
  rewrite !includes_spec. intros (a & b & ->).
  exists (p ++ a), b. rewrite app_assoc. reflexivity.
Qed.

Lemma includes_tail (s u v : jsstring) :
  includes s (u ++ v) = true -> includes s v = true.
Proof.
  rewrite !includes_spec. intros (a & b & ->).
  exists (a ++ u), b. rewrite <- !app_assoc. reflexivity.
Qed.

Lemma trimStart_id (s : jsstring) :
  forallb (fun c => negb (isWhiteSpace c)) s = true -> trimStart s = s.
Proof.
  destruct s as [|c s]; simpl; [reflexivity|].
  destruct (isWhiteSpace c); [discriminate | reflexivity].
Qed.

(** [trim] leaves a text without white space as it is. *)
Lemma trim_id (s : jsstring) :
  forallb (fun c => negb (isWhiteSpace c)) s = true -> trim s = s.
Proof.
  intros H. unfold trim, trimEnd. rewrite (trimStart_id _ H).
  rewrite trimStart_id; [apply rev_involutive|].
  rewrite forallb_rev. exact H.
Qed.

End Substrings.

(** ** The chat relay, beyond the replies of the table *)

Section ChatRelayMore.
Import JS Chat.
Local Open Scope Z_scope.

Variable user : option User.

Lemma canned_replies_differ :
  replyTimeout <> replyUnreachable /\ replyNetwork <> replyUnreachable
  /\ replyGeneric <> replyUnreachable.
Proof. repeat split; intros H; vm_compute in H; discriminate H. Qed.

Lemma fetchAIResponse_catch_cases (err : error) :
  fetchAIResponse_catch err <> replyUnreachable
  /\ In (fetchAIResponse_catch err) [replyTimeout; replyNetwork; replyGeneric]
  /\ (messageIncludes err "Failed to fetch" = true ->
      fetchAIResponse_catch err = replyTimeout
      \/ fetchAIResponse_catch err = replyNetwork).
Proof.
  assert (messageIncludes err "Failed to fetch" = true ->
          messageIncludes err "fetch" = true) as Hsub.
  { unfold messageIncludes. destruct (message err) as [m|]; [|discriminate].
    change (lit "Failed to fetch") with (lit "Failed to " ++ lit "fetch").
    apply includes_tail. }
  destruct canned_replies_differ as (D1 & D2 & D3).
  unfold fetchAIResponse_catch.
  destruct (isAbortError err || messageIncludes err "timeout"
            || messageIncludes err "abort").
  - repeat split; [exact D1 | simpl; tauto | tauto].
  - destruct (messageIncludes err "fetch") eqn:Ef.
    + rewrite orb_true_r. repeat split; [exact D2 | simpl; tauto | tauto].
    + rewrite orb_false_r.
      destruct (messageIncludes err "Network request failed").
      * repeat split; [exact D2 | simpl; tauto | tauto].
      * destruct (messageIncludes err "Failed to fetch") eqn:Eff.
        -- discriminate (Hsub eq_refl).
        -- repeat split; [exact D3 | simpl; tauto | intros [=]].
Qed.

(** Of the four replies of the [catch] block of [fetchAIResponse], the one
    for "Failed to fetch" is never given: a message that includes those
    words includes [fetch], which the branch before it tests, so such an
    error gets the reply of the network (or of the timeout). *)
Theorem failed_to_fetch_branch_is_dead :
  forall err : error,
    fetchAIResponse_catch err <> replyUnreachable
    /\ In (fetchAIResponse_catch err) [replyTimeout; replyNetwork; replyGeneric]
    /\ (messageIncludes err "Failed to fetch" = true ->
        fetchAIResponse_catch err = replyTimeout
        \/ fetchAIResponse_catch err = replyNetwork).
Proof. exact fetchAIResponse_catch_cases. Qed.

Lemma fetchAIResponse_snd (w : World) (now : Z) (prompt : jsstring) :
  snd (fetchAIResponse user w now prompt) =
    match fst (fetchAIResponse_try w (chatRequest user now prompt AI_API) [])
    with
    | Return reply => Return reply
    | Throw err => Return (Str (fetchAIResponse_catch err))
    end.
Proof.
  unfold fetchAIResponse. rewrite fetchAIResponseAt_run.
  rewrite fetchAIResponse_try_run. reflexivity.
Qed.

(** [fetchAIResponse] never rejects: a rejected request, a body that
    cannot be read or parsed, a read on [null] and an unmapped status all
    end in its own [catch], which answers with one of three fixed replies.
    So the record that [handleSendMessage] appends holds the reply of
    [fetchAIResponse], and its own [catch] text is never used. *)
Theorem fetchAIResponse_never_rejects :
  forall (w : World) (now : Z) (prompt : jsstring),
    (exists reply,
        snd (fetchAIResponse user w now prompt) = Return reply)
    /\ (forall err,
          fst (fetchAIResponse_try w (chatRequest user now prompt AI_API) [])
            = Throw err ->
          exists r,
            snd (fetchAIResponse user w now prompt) = Return (Str r)
            /\ In r [replyTimeout; replyNetwork; replyGeneric])
    /\ (forall (clk : SendClock) (st st1 : State),
          handleSendMessage_submit (t_user_id clk) (t_user_stamp clk) st
            = Some st1 ->
          exists reply,
            snd (fetchAIResponse user w (t_request clk) (inputText st))
              = Return reply
            /\ messages (fst (handleSendMessage user w clk st))
               = messages st1 ++
                   [{| id := toString (t_reply_id clk + 1); text := reply;
                       isUser := false;
                       timestamp := t_reply_stamp clk |}]).
Proof.
  intros w now prompt. split; [|split].
  - rewrite fetchAIResponse_snd.
    destruct (fst (fetchAIResponse_try _ _ _)); eauto.
  - intros err H. exists (fetchAIResponse_catch err). split.
    + rewrite fetchAIResponse_snd, H. reflexivity.
    + apply fetchAIResponse_catch_cases.
  - intros clk st st1 Hs. unfold handleSendMessage. rewrite Hs.
    rewrite (surjective_pairing
               (fetchAIResponse user w (t_request clk) (inputText st))).
    cbn [fst]. rewrite fetchAIResponse_snd.
    destruct (fst (fetchAIResponse_try _ _ _)); eexists; split; reflexivity.
Qed.

(** A response of a failure status outside the table (not 401, not 429,
    below 500) is answered by the words of its body: if the body includes
    [timeout] or [abort], the reply is the one for a request that took too
    long, although nothing timed out. *)
Theorem unmapped_status_is_classified_by_its_body :
  forall (w : World) (now : Z) (prompt : jsstring)
         (response : Response) (errorText : jsstring),
    fetch w (chatRequest user now prompt AI_API) = Return response ->
    ok response = false ->
    response_text response = Return errorText ->
    status response <> 401 -> status response <> 429 ->
    status response < 500 ->
    snd (fetchAIResponse user w now prompt) =
      Return (Str (fetchAIResponse_catch
                     (Error (lit "API returned status "
                             ++ toString (status response)
                             ++ lit ": " ++ errorText))))
    /\ (includes errorText (lit "timeout") = true
        \/ includes errorText (lit "abort") = true ->
        snd (fetchAIResponse user w now prompt) = Return (Str replyTimeout)).
Proof.
  intros w now prompt response errorText Hf Hok Ht H1 H2 H3.
  assert (snd (fetchAIResponse user w now prompt) =
            Return (Str (fetchAIResponse_catch
                           (Error (lit "API returned status "
                                   ++ toString (status response)
                                   ++ lit ": " ++ errorText))))) as E.
  { rewrite fetchAIResponse_snd, fetchAIResponse_try_run. cbn [fst].
    rewrite Hf. cbn [bind]. unfold fetchAIResponse_read.
    rewrite Hok. cbn [negb]. rewrite Ht. cbn [bind].
    destruct (status response =? 401) eqn:E1; [apply Z.eqb_eq in E1; lia|].
    destruct (status response =? 429) eqn:E2; [apply Z.eqb_eq in E2; lia|].
    destruct (status response >=? 500) eqn:E3;
      [rewrite Z.geb_leb in E3; apply Z.leb_le in E3; lia|].
    reflexivity. }
  split; [exact E|].
  intros Hw. rewrite E. do 2 f_equal.
  unfold fetchAIResponse_catch, messageIncludes, Error. cbn [message].
  rewrite !app_assoc.
  destruct Hw as [Hw|Hw];
    rewrite (includes_app_r _ _ _ Hw); rewrite ?orb_true_r; reflexivity.
Qed.

(** A press on send with a text that is all white space (the empty text
    included), or while a send is in flight, does nothing: the state is
    the same and no request is issued. *)
Theorem send_guard_rejects :
  forall (w : World) (clk : SendClock) (st : State),
    forallb isWhiteSpace (inputText st) = true \/ isLoading st = true ->
    handleSendMessage user w clk st = (st, []).
Proof.
  intros w clk st H. unfold handleSendMessage, handleSendMessage_submit.
  destruct H as [H | ->]; [|rewrite orb_true_r; reflexivity].
  apply trim_nil_iff in H. rewrite H. reflexivity.
Qed.

End ChatRelayMore.

(** ** The chat screen, event by event *)

Section ChatEvents.
Import JS Chat ChatFlow.
Local Open Scope Z_scope.

Variable user : option User.

Lemma submit_effect t_id t_stamp (st st1 : State) :
  handleSendMessage_submit t_id t_stamp st = Some st1 ->
  isLoading st = false
  /\ isLoading st1 = true /\ inputText st1 = []
  /\ exists u, messages st1 = messages st ++ [u] /\ isUser u = true.
Proof.
  unfold handleSendMessage_submit.
  destruct (negb (truthy (Str (trim (inputText st))))); [discriminate|].
  destruct (isLoading st); [discriminate|].
  intros [= <-]. repeat split. eexists; split; reflexivity.
Qed.

Lemma step_keeps_flowInvariant (s : Screen) (e : event) :
  flowInvariant user s -> flowInvariant user (step user s e).
Proof.
  intros H. pose proof H as ((now & rest & Hg) & Hp & Hi).
  assert (forall f : State -> State,
             (forall st, isLoading (f st) = isLoading st) ->
             (forall st, inputText (f st) = inputText st) ->
             (forall st n r, messages st = greeting user n :: r ->
                             exists n' r', messages (f st)
                                           = greeting user n' :: r') ->
             flowInvariant user (onUi f s)) as Hframe.
  { intros f Hl Ht Hm. unfold flowInvariant, onUi. cbn [ui pending].
    rewrite Hl, Ht. split; [exact (Hm _ _ _ Hg)|]. split; assumption. }
  destruct e as [t|t1 t2 t3|w t1 t2| | | | |now'|now']; cbn [step].
  - destruct (isLoading (ui s)) eqn:El; [exact H|].
    unfold flowInvariant, onUi. cbn. rewrite El.
    split; [eauto|]. split; [exact Hp | discriminate].
  - destruct (handleSendMessage_submit t1 t2 (ui s)) as [st1|] eqn:Es;
      [|exact H].
    destruct (submit_effect _ _ _ Es) as (_ & Hl & Ht & u & Hm & _).
    unfold flowInvariant. cbn [ui pending]. rewrite Hm, Hg, Hl, Ht.
    split; [eexists; eexists; reflexivity|].
    split; [split; [discriminate | reflexivity] | reflexivity].
  - destruct (pending s) as [p|] eqn:Ep; [|exact H].
    unfold flowInvariant. cbn [ui pending].
    destruct (settle_appends_assistant t1 t2
                (snd (fetchAIResponse user w (requested p) (prompt p)))
                (ui s)) as (a & Ha & _).
    rewrite Ha, Hg.
    assert (isLoading
              (handleSendMessage_settle t1 t2
                 (snd (fetchAIResponse user w (requested p) (prompt p)))
                 (ui s)) = false) as ->
      by (destruct (snd (fetchAIResponse user w (requested p) (prompt p)));
          reflexivity).
    split; [eexists; eexists; reflexivity|].
    split; [split; [discriminate | congruence] | discriminate].
  - apply Hframe; intros; cbn; eauto.
  - apply Hframe; intros; cbn; eauto.
  - apply Hframe; intros; cbn; eauto.
  - apply Hframe; intros; cbn; eauto.
  - apply Hframe; intros; cbn; eauto.
  - apply Hframe; intros; cbn; eauto.
Qed.

Lemma run_keeps_flowInvariant (es : list event) (s : Screen) :
  flowInvariant user s -> flowInvariant user (run user s es).
Proof.
  revert s; induction es as [|e es IH]; intros s H; [exact H|].
  apply (IH _ (step_keeps_flowInvariant e H)).
Qed.

Lemma reachable_flowInvariant (now : Z) (es : list event) :
  flowInvariant user (run user (initialScreen user now) es).
Proof.
  apply run_keeps_flowInvariant.
  repeat split; cbn; eauto; try discriminate; intros H; congruence.
Qed.

(** Whatever the order of the presses, the typing, the settling of
    requests and the clears, the transcript is never empty and starts with
    the greeting; a request is pending exactly while [isLoading] is set,
    and the input is empty while it is. *)
Theorem transcript_starts_with_greeting :
  forall (now : Z) (es : list event),
    (exists now' rest,
        messages (ui (run user (initialScreen user now) es))
          = greeting user now' :: rest)
    /\ (isLoading (ui (run user (initialScreen user now) es)) = true
        <-> pending (run user (initialScreen user now) es) <> None)
    /\ (isLoading (ui (run user (initialScreen user now) es)) = true ->
        inputText (ui (run user (initialScreen user now) es)) = []).
Proof.
  intros now es. exact (reachable_flowInvariant now es).
Qed.

(** At most one request is in flight: while one is pending, a press on
    send and typing into the input leave the screen as it is. *)
Theorem one_send_in_flight :
  forall (now : Z) (es : list event) (t1 t2 t3 : Z) (t : jsstring),
    pending (run user (initialScreen user now) es) <> None ->
    step user (run user (initialScreen user now) es) (PressSend t1 t2 t3)
      = run user (initialScreen user now) es
    /\ step user (run user (initialScreen user now) es) (ChangeText t)
       = run user (initialScreen user now) es.
Proof.
  intros now es t1 t2 t3 t Hp.
  destruct (reachable_flowInvariant now es) as (_ & Hl & _).
  apply Hl in Hp. cbn [step]. unfold handleSendMessage_submit.
  rewrite Hp, orb_true_r. split; reflexivity.
Qed.

(** A press on send followed at once by the settling of its request is
    the handler run as a whole. *)
Theorem press_then_settle_is_handleSendMessage :
  forall (w : World) (clk : SendClock) (s : Screen),
    pending s = None ->
    ui (step user
          (step user s
             (PressSend (t_user_id clk) (t_user_stamp clk) (t_request clk)))
          (Settle w (t_reply_id clk) (t_reply_stamp clk)))
    = fst (handleSendMessage user w clk (ui s)).
Proof.
  intros w clk s Hp. cbn [step]. unfold handleSendMessage.
  destruct (handleSendMessage_submit (t_user_id clk) (t_user_stamp clk)
              (ui s)) as [st1|].
  - cbn [pending ui prompt requested].
    rewrite (surjective_pairing
               (fetchAIResponse user w (t_request clk) (inputText (ui s)))).
    reflexivity.
  - rewrite Hp. reflexivity.
Qed.

(** A clear confirmed while a request is in flight does not cancel it:
    when the request settles, its reply is appended to the cleared
    transcript, which then holds the greeting and that reply, without the
    question. *)
Theorem clear_in_flight_keeps_the_reply :
  forall (w : World) (t1 t2 t3 now t4 t5 : Z) (s : Screen),
    pending s = None ->
    sendDisabled (ui s) = false ->
    exists a,
      messages
        (ui (run user s [PressSend t1 t2 t3; ConfirmClear now;
                         Settle w t4 t5]))
        = [greeting user now; a]
      /\ isUser a = false
      /\ snd (fetchAIResponse user w t3 (inputText (ui s))) = Return (text a)
      /\ isLoading
           (ui (run user s [PressSend t1 t2 t3; ConfirmClear now;
                            Settle w t4 t5])) = false.
Proof.
  intros w t1 t2 t3 now t4 t5 s Hp Hd.
  unfold run. cbn [fold_left step]. unfold handleSendMessage_submit.
  unfold sendDisabled in Hd. rewrite Hd.
  cbn [onUi ui pending prompt requested].
  destruct (fetchAIResponseAt_returns user AI_API w t3 (inputText (ui s)))
    as (reply & Hr).
  change (fetchAIResponseAt AI_API) with fetchAIResponse in Hr.
  rewrite Hr. eexists. repeat split; reflexivity.
Qed.

End ChatEvents.

(** ** The verification screen, beyond the rejected codes *)

Section VerifyMore.
Import JS UI VerifyEmail VerifyView.
Local Open Scope Z_scope.

Lemma isDigit_not_space (c : N) : isDigit c = true -> isWhiteSpace c = false.
Proof.
  unfold isDigit, isWhiteSpace. rewrite andb_true_iff, !N.leb_le.
  intros [H1 H2].
  apply orb_false_iff. split.
  - simpl. repeat (apply orb_false_iff; split); try reflexivity;
      apply N.eqb_neq; lia.
  - apply andb_false_iff. left. apply N.leb_gt. lia.
Qed.

Lemma digits_trim (s : jsstring) :
  forallb isDigit s = true -> trim s = s.
Proof.
  intros H. apply trim_id. rewrite forallb_forall in *.
  intros c Hc. rewrite (isDigit_not_space _ (H c Hc)). reflexivity.
Qed.

Lemma filter_digits_id (s : jsstring) :
  forallb isDigit s = true -> filter isDigit s = s.
Proof.
  induction s as [|c s IH]; simpl; [reflexivity|].
  destruct (isDigit c); simpl; [|discriminate].
  intros H. rewrite (IH H). reflexivity.
Qed.

(** The sanitiser of the code input: what it writes is made of digits, at
    most six of them; it changes nothing in a text that is already so (in
    particular it is idempotent); and what it writes is a six-digit code
    exactly when the typed text holds six digits or more. *)
Theorem sanitize_keeps_six_digits :
  forall text : jsstring,
    forallb isDigit (sanitize text) = true
    /\ (List.length (sanitize text) <= 6)%nat
    /\ sanitize (sanitize text) = sanitize text
    /\ (sanitize text = text <->
        forallb isDigit text = true /\ (List.length text <= 6)%nat)
    /\ matchesSixDigits (sanitize text)
       = (6 <=? List.length (filter isDigit text))%nat.
Proof.
  intros text.
  assert (forall t, forallb isDigit t = true -> (List.length t <= 6)%nat ->
                    sanitize t = t) as Hfix.
  { intros t Hd Hl. unfold sanitize. rewrite (filter_digits_id _ Hd).
    apply firstn_all2. exact Hl. }
  assert ((List.length (sanitize text) <= 6)%nat) as Hlen
    by (unfold sanitize; apply firstn_le_length).
  split; [apply sanitize_digits|]. split; [exact Hlen|].
  split; [apply Hfix; [apply sanitize_digits | exact Hlen]|].
  split.
  - split.
    + intros <-. split; [apply sanitize_digits | exact Hlen].
    + intros [Hd Hl]. apply Hfix; assumption.
  - unfold matchesSixDigits. rewrite sanitize_digits, andb_true_r.
    unfold sanitize. rewrite length_firstn.
    destruct (6 <=? List.length (filter isDigit text))%nat eqn:E.
    + apply Nat.leb_le in E. apply Nat.eqb_eq. lia.
    + apply Nat.leb_gt in E. apply Nat.eqb_neq. lia.
Qed.

(** In every state the screen reaches, the verify button is disabled
    exactly for the codes that are not six digits, and while a
    verification is in flight. *)
Theorem verify_button_follows_the_code :
  forall es : list event,
    verifyDisabled (run initialState es)
    = negb (matchesSixDigits (code (run initialState es)))
      || isLoading (run initialState es).
Proof.
  intros es.
  assert (forallb isDigit (code (run initialState es)) = true) as Hd
    by (apply reachable_code_digits; reflexivity).
  unfold verifyDisabled, matchesSixDigits. rewrite Hd, andb_true_r.
  destruct (code (run initialState es)) as [|c r] eqn:E.
  - reflexivity.
  - cbn [truthy negb orb]. f_equal. f_equal.
    destruct (Nat.eqb (List.length (c :: r)) 6) eqn:E6.
    + apply Nat.eqb_eq in E6. rewrite E6. reflexivity.
    + apply Nat.eqb_neq in E6. apply Z.eqb_neq. lia.
Qed.

(** With the form on the screen and the sign-up waiting for its
    verification, a six-digit code in a reachable state is what the
    provider is called with, as typed and before anything else; with any
    other code the provider is not called. *)
Theorem verify_submits_the_typed_code :
  forall (es : list event) (h : Hook) (w : World) (su : SignUp),
    isLoaded h = true ->
    signUp h = Some su ->
    status su = lit "missing_requirements" ->
    (matchesSixDigits (code (run initialState es)) = true ->
     exists rest,
       snd (handleVerify h w (run initialState es))
       = Call (AttemptEmailAddressVerification (code (run initialState es)))
         :: rest)
    /\ (matchesSixDigits (code (run initialState es)) = false ->
        calls (snd (handleVerify h w (run initialState es))) = []).
Proof.
  intros es h w su Hl Hs Hst.
  assert (forallb isDigit (code (run initialState es)) = true) as Hd
    by (apply reachable_code_digits; reflexivity).
  set (st := run initialState es) in *.
  split.
  - intros Hm. unfold matchesSixDigits in Hm.
    apply andb_true_iff in Hm as [Hn _]. apply Nat.eqb_eq in Hn.
    destruct (@handleVerify_counts_characters h w st Hl) as (rest & Hr);
      try assumption.
    + exists su. split; assumption.
    + rewrite (digits_trim _ Hd). intros E. rewrite E in Hn. discriminate.
    + rewrite (digits_trim _ Hd) in Hr. exists rest. exact Hr.
  - intros Hm. unfold matchesSixDigits in Hm.
    rewrite Hd, andb_true_r in Hm. apply Nat.eqb_neq in Hm.
    unfold handleVerify. rewrite Hl, Hs, Hst, jseqb_refl. cbn [negb].
    destruct (negb (truthy (Str (trim (code st))))); [reflexivity|].
    assert ((Z.of_nat (List.length (code st)) =? 6) = false) as ->
      by (apply Z.eqb_neq; lia).
    reflexivity.
Qed.

End VerifyMore.

Section VerifyOutcome.
Import JS UI VerifyEmail VerifyView.
Local Open Scope Z_scope.

(** Once [handleVerify] is past its four tests it ends in one of two ways,
    with the loading flag cleared and the code kept in both.  It ends
    verified only when the attempt came back complete with a session id,
    [setActive] was at hand and activating that session succeeded: then
    the effects are the attempt, the activation and the alert of success.
    In every other case (a rejected attempt, another status, no session,
    a failed activation) the status is failed and the last effect is the
    one alert "Verification Failed", after calls only. *)
Theorem verification_ends_verified_or_failed :
  forall (h : Hook) (w : World) (st : State) (su : SignUp),
    isLoaded h = true ->
    signUp h = Some su ->
    status su = lit "missing_requirements" ->
    trim (code st) <> [] ->
    List.length (code st) = 6%nat ->
    isLoading (fst (handleVerify h w st)) = false
    /\ code (fst (handleVerify h w st)) = code st
    /\ ((verificationStatus (fst (handleVerify h w st)) = verified
         /\ exists a session,
             attemptEmailAddressVerification w (trim (code st)) = Return a
             /\ attempt_status a = lit "complete"
             /\ createdSessionId a = Some session
             /\ session <> []
             /\ setActive h = true
             /\ activate w session = Return tt
             /\ snd (handleVerify h w st)
                = [Call (AttemptEmailAddressVerification (trim (code st)));
                   Call (SetActive (Some session)); successAlert])
        \/ (verificationStatus (fst (handleVerify h w st)) = failed
            /\ exists before m,
                snd (handleVerify h w st)
                = before ++ [Alert (lit "Verification Failed") m []]
                /\ forallb isCall before = true)).
Proof.
  intros h w st su Hl Hs Hst Ht Hn. unfold handleVerify.
  rewrite Hl, Hs, Hst, jseqb_refl. cbn [negb].
  destruct (trim (code st)) as [|c r] eqn:E; [congruence|].
  cbn [truthy negb]. rewrite Hn.
  cbn [Z.of_nat Pos.of_succ_nat Pos.succ Z.eqb Pos.eqb negb].
  unfold handleVerify_try. rewrite E.
  destruct (attemptEmailAddressVerification w (c :: r)) as [a|e] eqn:Ea.
  - destruct (eqb (attempt_status a) (lit "complete")) eqn:Ec.
    + apply jseqb_eq in Ec.
      destruct (setActive h) eqn:Esa.
      * destruct (createdSessionId a) as [[|x s]|] eqn:Eid.
        -- repeat split. right. split; [reflexivity|].
           eexists [_], _. split; reflexivity.
        -- destruct (activate w (x :: s)) as [[]|e] eqn:Eact.
           ++ repeat split. left. split; [reflexivity|].
              exists a, (x :: s). repeat split; try assumption.
              discriminate.
           ++ repeat split. right. split; [reflexivity|].
              eexists [_; _], _. split; reflexivity.
        -- repeat split. right. split; [reflexivity|].
           eexists [_], _. split; reflexivity.
      * repeat split. right. split; [reflexivity|].
        destruct (createdSessionId a) as [[|x s]|];
          eexists [_], _; split; reflexivity.
    + repeat split. right. split; [reflexivity|].
      eexists [_], _. split; reflexivity.
  - repeat split. right. split; [reflexivity|].
    eexists [_], _. split; reflexivity.
Qed.

(** The resend and the timer never touch the code, the verification
    status, the loading flag or the email; typing and verifying never
    touch the cooldown, the resend flag or the email. *)
Theorem resend_and_verification_do_not_interfere :
  forall (st : State) (e : event),
    match e with
    | PressResend _ | ResendSettles _ | Tick =>
        code (step st e) = code st
        /\ verificationStatus (step st e) = verificationStatus st
        /\ isLoading (step st e) = isLoading st
        /\ email (step st e) = email st
    | ChangeText _ | Verify _ _ =>
        resendCooldown (step st e) = resendCooldown st
        /\ isResending (step st e) = isResending st
        /\ email (step st e) = email st
    end.
Proof.
  intros st e. destruct e as [text|h w|h|outcome|]; cbn [step].
  - unfold onChangeText. destruct (isLoading st); repeat split.
  - unfold handleVerify.
    destruct (isLoaded h), (signUp h); try (repeat split; fail).
    by_cases ltac:(repeat split; fail).
    destruct (handleVerify_try h w st) as [[v effects] [u|err]];
      repeat split.
  - unfold pressResend. destruct (resendDisabled st); [repeat split|].
    unfold handleResendCode_start.
    destruct (isLoaded h), (signUp h); try (repeat split; fail).
    by_cases ltac:(repeat split; fail).
  - destruct (isResending st); [|repeat split].
    destruct outcome; repeat split.
  - unfold tick. destruct (0 <? resendCooldown st); repeat split.
Qed.

Lemma step_flight_without_cooldown (st : State) (e : event) :
  0 <= resendCooldown st ->
  isResending st = false \/ resendCooldown st = 0 ->
  isResending (step st e) = false \/ resendCooldown (step st e) = 0.
Proof.
  intros H0 H. destruct e as [text|h w|h|outcome|]; cbn [step].
  - unfold onChangeText. destruct (isLoading st); exact H.
  - unfold handleVerify.
    destruct (isLoaded h), (signUp h); try exact H.
    by_cases ltac:(exact H).
    destruct (handleVerify_try h w st) as [[v effects] [u|err]]; exact H.
  - unfold pressResend, resendDisabled.
    destruct (isResending st) eqn:Er;
      [cbn [orb fst]; rewrite Er; exact H|]. cbn [orb].
    destruct (0 <? resendCooldown st) eqn:Ec; [left; exact Er|].
    apply Z.ltb_ge in Ec.
    unfold handleResendCode_start.
    destruct (isLoaded h), (signUp h); try (left; exact Er).
    rewrite (proj2 (Z.ltb_ge 0 (resendCooldown st)) Ec).
    by_cases ltac:(left; exact Er).
    right. cbn. lia.
  - destruct (isResending st) eqn:Er; [|left; exact Er].
    destruct outcome; left; reflexivity.
  - unfold tick. destruct (0 <? resendCooldown st) eqn:Ec; [|exact H].
    destruct H as [H|H]; [left; exact H|].
    apply Z.ltb_lt in Ec. lia.
Qed.

Lemma reachable_flight_without_cooldown (es : list event) (st : State) :
  0 <= resendCooldown st <= 30 ->
  isResending st = false \/ resendCooldown st = 0 ->
  isResending (run st es) = false \/ resendCooldown (run st es) = 0.
Proof.
  revert st; induction es as [|e es IH]; intros st H0 H; [exact H|].
  apply IH; [apply step_cooldown_range, H0|].
  apply step_flight_without_cooldown; [lia | exact H].
Qed.

(** In every state the screen reaches, a resend is in flight only while
    the cooldown is at 0: no resend starts during a cooldown and no
    cooldown starts during a flight. *)
Theorem no_flight_during_cooldown :
  forall es : list event,
    isResending (run initialState es) = false
    \/ resendCooldown (run initialState es) = 0.
Proof.
  intros es. apply reachable_flight_without_cooldown.
  - simpl. lia.
  - left. reflexivity.
Qed.

(** A resend that fails arms no cooldown: when it settles, the screen
    shows the one alert "Resend Failed", calls nothing, and the resend
    button is enabled again at once. *)
Theorem failed_resend_can_be_retried :
  forall (es : list event) (err : thrown),
    isResending (run initialState es) = true ->
    resendDisabled (step (run initialState es) (ResendSettles (Throw err)))
      = false
    /\ resendCooldown (step (run initialState es) (ResendSettles (Throw err)))
       = 0
    /\ snd (handleResendCode_settle (Throw err) (run initialState es))
       = [Alert (lit "Resend Failed") (resendErrorMessage err) []].
Proof.
  intros es err Hr.
  destruct (reachable_flight_without_cooldown es initialState) as [H|H];
    [simpl; lia | left; reflexivity | congruence |].
  cbn [step]. rewrite Hr. unfold resendDisabled. cbn. rewrite H.
  repeat split.
Qed.

Lemma handleVerify_try_calls_first (h : Hook) (w : World) (st : State) :
  exists rest,
    snd (fst (handleVerify_try h w st))
    = Call (AttemptEmailAddressVerification (trim (code st))) :: rest.
Proof.
  unfold handleVerify_try.
  destruct (attemptEmailAddressVerification w (trim (code st))) as [a|e];
    [|cbn; eauto].
  destruct (eqb (attempt_status a) (lit "complete")); [|cbn; eauto].
  destruct (setActive h), (createdSessionId a) as [[|x s]|]; cbn; eauto.
  destruct (activate w (x :: s)); cbn; eauto.
Qed.

Lemma handleVerify_try_effects (h : Hook) (w : World) (st : State) :
  forall e,
    In e (snd (fst (handleVerify_try h w st))) ->
    isCall e = true \/ e = successAlert.
Proof.
  unfold handleVerify_try.
  destruct (attemptEmailAddressVerification w (trim (code st))) as [a|e0];
    [|cbn; intuition (subst; auto)].
  destruct (eqb (attempt_status a) (lit "complete"));
    [|cbn; intuition (subst; auto)].
  destruct (setActive h), (createdSessionId a) as [[|x s]|];
    try (cbn; intuition (subst; auto); fail).
  destruct (activate w (x :: s)); cbn; intuition (subst; auto).
Qed.

(** With the form on the screen (the SDK loaded, a sign-up that is not
    complete), the resend handler never shows "Already Verified": it
    returns at once or starts the one call; and [handleVerify] never
    shows "System not ready". *)
Theorem form_handlers_skip_the_page_tests :
  forall (h : Hook) (st : State),
    render h = FormView ->
    (handleResendCode_start h st = (st, [])
     \/ handleResendCode_start h st
        = (setResend true (resendCooldown st) st,
           [Call (PrepareEmailAddressVerification (lit "email_code"))]))
    /\ (forall w : World,
          ~ In (Alert (lit "Error") msgSystemNotReady [])
               (snd (handleVerify h w st))).
Proof.
  intros h st Hv. unfold render in Hv.
  destruct (isLoaded h) eqn:El; [|discriminate]. cbn [negb] in Hv.
  destruct (signUp h) as [su|] eqn:Es; [|discriminate].
  destruct (eqb (status su) (lit "complete")) eqn:Ec; [discriminate|].
  split.
  - unfold handleResendCode_start. rewrite El, Es, Ec.
    destruct (0 <? resendCooldown st); [left | right]; reflexivity.
  - intros w. unfold handleVerify. rewrite El, Es.
    assert (forall m,
               m = msgCannotVerify \/ m = msgEnterCode \/ m = msgSixDigits ->
               ~ In (Alert (lit "Error") msgSystemNotReady [])
                    [Alert (lit "Error") m []]) as Hother.
    { intros m Hm [H|[]]. injection H as H.
      destruct Hm as [-> | [-> | ->]]; vm_compute in H; discriminate H. }
    destruct (negb (eqb (status su) (lit "missing_requirements")));
      [apply Hother; tauto|].
    destruct (negb (truthy (Str (trim (code st)))));
      [apply Hother; tauto|].
    destruct (negb (Z.of_nat (List.length (code st)) =? 6));
      [apply Hother; tauto|].
    pose proof (handleVerify_try_effects h w st) as Hh.
    destruct (handleVerify_try h w st) as [[v effects] r].
    cbn [fst snd] in Hh.
    assert (~ In (Alert (lit "Error") msgSystemNotReady []) effects) as Hn.
    { intros Hin. apply Hh in Hin as [Hc | He]; [discriminate Hc|].
      apply (f_equal (fun e => match e with
                               | Alert title _ _ => title
                               | _ => []
                               end)) in He.
      vm_compute in He. discriminate He. }
    destruct r as [u|err]; cbn [snd]; [exact Hn|].
    intros Hin. apply in_app_or in Hin as [Hin | [Hin | []]];
      [exact (Hn Hin)|].
    injection Hin as Hin _. vm_compute in Hin. discriminate Hin.
Qed.

End VerifyOutcome.

(** ** The sign-in form *)

Section SignInFormProperties.
Import JS UI SignIn SignInForm.

Lemma stripWhiteSpace_clean (text : jsstring) :
  noWhiteSpace (stripWhiteSpace text).
Proof.
  unfold noWhiteSpace, stripWhiteSpace. apply forallb_forall.
  intros c Hc. apply filter_In in Hc. apply Hc.
Qed.

Lemma noWhiteSpace_no_space (s : jsstring) :
  noWhiteSpace s -> includes s (lit " ") = false.
Proof.
  intros H. destruct (includes s (lit " ")) eqn:E; [|reflexivity].
  apply includes_spec in E as (a & b & ->).
  unfold noWhiteSpace in H. rewrite forallb_app in H.
  apply andb_true_iff in H as [_ H]. cbn in H. discriminate H.
Qed.

Lemma handleSubmit_keeps_fields (h : Hook) (w : World) (st : State) :
  email (fst (handleSubmit h w st)) = email st
  /\ password (fst (handleSubmit h w st)) = password st
  /\ (isLoading st = false -> isLoading (fst (handleSubmit h w st)) = false).
Proof.
  unfold handleSubmit. by_cases ltac:(repeat split; auto; fail).
  destruct (handleSubmit_try w st) as [effects [u|err]]; repeat split.
Qed.

Lemma step_keeps_fields_clean (st : State) (e : event) :
  noWhiteSpace (email st) /\ noWhiteSpace (password st)
  /\ isLoading st = false ->
  noWhiteSpace (email (step st e)) /\ noWhiteSpace (password (step st e))
  /\ isLoading (step st e) = false.
Proof.
  intros (He & Hp & Hl). destruct e as [text|text| |h w]; cbn [step].
  - rewrite Hl. cbn. repeat split; auto using stripWhiteSpace_clean.
  - rewrite Hl. cbn. repeat split; auto using stripWhiteSpace_clean.
  - rewrite Hl. cbn. repeat split; auto.
  - destruct (submitDisabled st); [repeat split; assumption|].
    destruct (handleSubmit_keeps_fields h w st) as (-> & -> & H).
    repeat split; auto.
Qed.

Lemma reachable_fields_clean (es : list event) (st : State) :
  noWhiteSpace (email st) /\ noWhiteSpace (password st)
  /\ isLoading st = false ->
  noWhiteSpace (email (run st es)) /\ noWhiteSpace (password (run st es))
  /\ isLoading (run st es) = false.
Proof.
  revert st; induction es as [|e es IH]; intros st H; [exact H|].
  apply IH, step_keeps_fields_clean, H.
Qed.

(** What the two inputs write holds no white space, so in every state the
    form reaches, with the form on the screen and the sign-in button
    enabled, a press goes past both validation alerts of [handleSubmit]
    and calls [signIn.create] with the email and the password as they
    stand in the inputs. *)
Theorem enabled_button_reaches_the_provider :
  forall (es : list event) (h : Hook) (w : World),
    isLoaded h = true ->
    setActive h = true ->
    submitDisabled (run initialState es) = false ->
    includes (email (run initialState es)) (lit " ") = false
    /\ includes (password (run initialState es)) (lit " ") = false
    /\ exists rest,
        snd (handleSubmit h w (run initialState es))
        = Call (SignInCreate (email (run initialState es))
                  (password (run initialState es))) :: rest.
Proof.
  intros es h w Hl Ha Hd.
  destruct (reachable_fields_clean es initialState) as (He & Hp & _);
    [repeat split; reflexivity|].
  set (st := run initialState es) in *.
  pose proof (noWhiteSpace_no_space He) as Hse.
  pose proof (noWhiteSpace_no_space Hp) as Hsp.
  split; [exact Hse|]. split; [exact Hsp|].
  unfold submitDisabled in Hd.
  apply orb_false_iff in Hd as [Hd _].
  unfold handleSubmit. rewrite Hl, Ha. cbn [negb orb].
  rewrite Hd, Hse, Hsp. cbn [orb].
  unfold handleSubmit_try. rewrite (trim_id _ He).
  destruct (create w (email st) (password st)) as [r|e];
    [|cbn; eauto].
  destruct (eqb (status r) (lit "complete")); [|cbn; eauto].
  destruct (activate w (createdSessionId r)); cbn; eauto.
Qed.

(** [handleSubmit] calls the provider exactly when the SDK is loaded,
    [setActive] is at hand, both fields are filled and neither holds a
    space; its first effect is then [signIn.create] with the trimmed
    email and the password untouched. *)
Theorem sign_in_calls_after_validation_only :
  forall (h : Hook) (w : World) (st : State),
    (calls (snd (handleSubmit h w st)) <> [] <->
     isLoaded h = true /\ setActive h = true
     /\ email st <> [] /\ password st <> []
     /\ includes (email st) (lit " ") = false
     /\ includes (password st) (lit " ") = false)
    /\ (calls (snd (handleSubmit h w st)) <> [] ->
        exists rest,
          snd (handleSubmit h w st)
          = Call (SignInCreate (trim (email st)) (password st)) :: rest).
Proof.
  intros h w st.
  assert (exists rest,
             fst (handleSubmit_try w st)
             = Call (SignInCreate (trim (email st)) (password st)) :: rest)
    as (rest & Hr).
  { unfold handleSubmit_try.
    destruct (create w (trim (email st)) (password st)) as [r|e];
      [|cbn; eauto].
    destruct (eqb (status r) (lit "complete")); [|cbn; eauto].
    destruct (activate w (createdSessionId r)); cbn; eauto. }
  unfold handleSubmit.
  destruct (isLoaded h), (setActive h); cbn [negb orb];
    try (split; [split; [intros H; exfalso; apply H; reflexivity
                        | intros (? & ? & _); discriminate]
                | intros H; exfalso; apply H; reflexivity]).
  destruct (email st) as [|c e] eqn:Ee;
    [cbn; split; [split; [intros H; exfalso; apply H; reflexivity
                         | intros (_ & _ & H & _); congruence]
                 | intros H; exfalso; apply H; reflexivity]|].
  destruct (password st) as [|c' p'] eqn:Ep;
    [cbn; split; [split; [intros H; exfalso; apply H; reflexivity
                         | intros (_ & _ & _ & H & _); congruence]
                 | intros H; exfalso; apply H; reflexivity]|].
  cbn [truthy negb orb].
  destruct (includes (c :: e) (lit " ")) eqn:Ie;
    [cbn; split; [split; [intros H; exfalso; apply H; reflexivity
                         | intros (_ & _ & _ & _ & H & _); congruence]
                 | intros H; exfalso; apply H; reflexivity]|].
  destruct (includes (c' :: p') (lit " ")) eqn:Ip;
    [cbn; split; [split; [intros H; exfalso; apply H; reflexivity
                         | intros (_ & _ & _ & _ & _ & H); congruence]
                 | intros H; exfalso; apply H; reflexivity]|].
  cbn [orb].
  destruct (handleSubmit_try w st) as [effects [u|err]]; cbn [fst snd] in *;
    subst effects; cbn [app]; (split; [split|]).
  all: try (intros _; repeat split; congruence).
  all: try (intros _; eexists; reflexivity).
  all: cbn; discriminate.
Qed.

(** A submission that is past the validation ends in exactly one of two
    ways, with the loading flag cleared: the session of a complete
    sign-in is activated and the screen goes to the tabs; or one alert is
    shown after the calls, and the screen stays. *)
Theorem sign_in_ends_in_tabs_or_alert :
  forall (h : Hook) (w : World) (st : State),
    isLoaded h = true -> setActive h = true ->
    email st <> [] -> password st <> [] ->
    includes (email st) (lit " ") = false ->
    includes (password st) (lit " ") = false ->
    isLoading (fst (handleSubmit h w st)) = false
    /\ ((exists r,
            create w (trim (email st)) (password st) = Return r
            /\ status r = lit "complete"
            /\ activate w (createdSessionId r) = Return tt
            /\ snd (handleSubmit h w st)
               = [Call (SignInCreate (trim (email st)) (password st));
                  Call (SetActive (createdSessionId r));
                  Navigate (RouterReplace (lit "/(tabs)"))])
        \/ (exists before title message,
              snd (handleSubmit h w st)
              = before ++ [Alert title message []]
              /\ forallb isCall before = true)).
Proof.
  intros h w st Hl Ha He Hp Hse Hsp.
  unfold handleSubmit. rewrite Hl, Ha. cbn [negb orb].
  destruct (email st) as [|c e] eqn:Ee; [congruence|].
  destruct (password st) as [|c' p'] eqn:Ep; [congruence|].
  cbn [truthy negb orb]. rewrite Hse, Hsp. cbn [orb].
  unfold handleSubmit_try. rewrite Ee, Ep.
  destruct (create w (trim (c :: e)) (c' :: p')) as [r|err] eqn:Ec.
  - destruct (eqb (status r) (lit "complete")) eqn:Es.
    + apply jseqb_eq in Es.
      destruct (activate w (createdSessionId r)) as [[]|err] eqn:Eact.
      * split; [reflexivity|]. left. exists r. repeat split; assumption.
      * split; [reflexivity|]. right.
        eexists [_; _], _, _. split; reflexivity.
    + split; [reflexivity|]. right.
      eexists [_], _, _. split; reflexivity.
  - split; [reflexivity|]. right.
    eexists [_], _, _. split; reflexivity.
Qed.

End SignInFormProperties.

(** ** The OAuth buttons *)

Section OAuthProperties.
Import JS UI OAuth.

Lemma handle_try_shows_no_alert (t : Texts) (w : World) :
  forallb (fun e => negb (isAlert e)) (fst (handle_try t w)) = true.
Proof.
  unfold handle_try.
  destruct (startOAuthFlow w (strategy t)) as [flow|e]; [|reflexivity].
  destruct (createdSessionId flow) as [[|c s]|], (setActive flow);
    try reflexivity.
  destruct (activate w (c :: s)); reflexivity.
Qed.

(** A cancelled flow is silent.  An error is taken for a cancellation
    exactly when it is an [Error] whose message includes [cancelled]
    (the second test of the sign-in screen, for [user_cancelled], adds
    nothing); the handler then shows no alert at all, also when the
    error carries the provider's [errors], and clears the loading flag. *)
Theorem oauth_cancellation_is_silent :
  forall (t : Texts) (w : World),
    (forall err,
        isCancellation t err
        = match asError err with
          | Some message => includes message (lit "cancelled")
          | None => false
          end)
    /\ (forall err message,
          snd (handle_try t w) = Throw err ->
          asError err = Some message ->
          includes message (lit "cancelled") = true ->
          handle t true w = (Some false, fst (handle_try t w))
          /\ forallb (fun e => negb (isAlert e)) (snd (handle t true w))
             = true).
Proof.
  intros t w.
  assert (forall err,
             isCancellation t err
             = match asError err with
               | Some message => includes message (lit "cancelled")
               | None => false
               end) as Hc.
  { intros err. unfold isCancellation.
    destruct (asError err) as [m|]; [|reflexivity].
    destruct (includes m (lit "cancelled")) eqn:E; [reflexivity|].
    destruct (testsUserCancelled t); [|reflexivity]. cbn [orb andb].
    destruct (includes m (lit "user_cancelled")) eqn:Eu; [|reflexivity].
    change (lit "user_cancelled") with (lit "user_" ++ lit "cancelled") in Eu.
    rewrite (includes_tail _ _ _ Eu) in E. discriminate E. }
  split; [exact Hc|].
  intros err message Ht Hm Hi.
  assert (handle t true w = (Some false, fst (handle_try t w))) as E.
  { unfold handle. cbn [negb].
    destruct (handle_try t w) as [effects r]. cbn [fst snd] in *.
    subst r. rewrite Hc, Hm, Hi. reflexivity. }
  split; [exact E|]. rewrite E. apply handle_try_shows_no_alert.
Qed.

(** With the SDK loaded, each of the four OAuth handlers clears the
    loading flag and ends in one of three ways: the flow came back with a
    session and [setActive], the session was activated, and the screen
    goes to the tabs; or the failure is a cancellation and nothing is
    shown; or exactly one alert with the handler's title closes the
    effects.  A flow that comes back without a session or without
    [setActive] is alerted with the handler's "incomplete" text. *)
Theorem oauth_ends_in_tabs_silence_or_alert :
  forall (t : Texts) (w : World),
    In t [googleSignIn; microsoftSignIn; googleSignUp; microsoftSignUp] ->
    fst (handle t true w) = Some false
    /\ ((exists flow session,
            startOAuthFlow w (strategy t) = Return flow
            /\ createdSessionId flow = Some session /\ session <> []
            /\ setActive flow = true
            /\ activate w session = Return tt
            /\ snd (handle t true w)
               = [Call (StartOAuthFlow (strategy t));
                  Call (SetActive (Some session));
                  Navigate (RouterReplace (lit "/(tabs)"))])
        \/ (exists err,
              snd (handle_try t w) = Throw err
              /\ isCancellation t err = true
              /\ snd (handle t true w) = fst (handle_try t w))
        \/ (exists err,
              snd (handle_try t w) = Throw err
              /\ snd (handle t true w)
                 = fst (handle_try t w)
                   ++ [Alert (title t) (errorMessage t err)
                         [(lit "OK", None)]]))
    /\ (forall flow,
          startOAuthFlow w (strategy t) = Return flow ->
          createdSessionId flow = None \/ createdSessionId flow = Some []
          \/ setActive flow = false ->
          snd (handle t true w)
          = [Call (StartOAuthFlow (strategy t));
             Alert (title t) (incomplete t) [(lit "OK", None)]]).
Proof.
  intros t w Ht. split; [|split].
  - unfold handle. cbn [negb].
    destruct (handle_try t w) as [effects [u|err]]; [reflexivity|].
    destruct (isCancellation t err); reflexivity.
  - unfold handle. cbn [negb].
    destruct (handle_try t w) as [effects [u|err]] eqn:E.
    + left. unfold handle_try in E.
      destruct (startOAuthFlow w (strategy t)) as [flow|e];
        [|discriminate E].
      destruct (createdSessionId flow) as [[|c s]|] eqn:Ei,
               (setActive flow) eqn:Es; try discriminate E.
      destruct (activate w (c :: s)) as [[]|e] eqn:Ea; [|discriminate E].
      injection E as <-. exists flow, (c :: s).
      repeat split; try assumption. discriminate.
    + right. destruct (isCancellation t err) eqn:Ec.
      * left. exists err. repeat split. exact Ec.
      * right. exists err. split; reflexivity.
  - intros flow Hf Hmiss.
    assert (handle_try t w
            = ([Call (StartOAuthFlow (strategy t))],
               Throw (Error (incomplete t)))) as E.
    { unfold handle_try. rewrite Hf.
      destruct Hmiss as [-> | [-> | ->]]; try reflexivity.
      destruct (createdSessionId flow) as [[|c s]|]; reflexivity. }
    unfold handle. cbn [negb]. rewrite E.
    assert (isCancellation t (Error (incomplete t)) = false) as ->.
    { simpl in Ht. destruct Ht as [<-|[<-|[<-|[<-|[]]]]]; reflexivity. }
    reflexivity.
Qed.

End OAuthProperties.

(** ** Regular expressions *)

Section RegexFacts.
Import JS Regex.

Lemma nullable_spec (r : re) : nullable r = true <-> Matches r [].
Proof.
  split.
  - induction r as [|p|r1 IH1 r2 IH2|r1 IH1 r2 IH2|r IH|]; simpl; intros H;
      try discriminate.
    + constructor.
    + apply andb_true_iff in H as [H1 H2].
      change (@nil N) with (@nil N ++ []). constructor; auto.
    + apply orb_true_iff in H as [H|H];
        [apply MAltL | apply MAltR]; auto.
    + constructor.
  - intros H. remember [] as s eqn:E.
    induction H as [|p c Hp|r1 r2 s1 s2 H1 IH1 H2 IH2|r1 r2 s H IH
                   |r1 r2 s H IH|r|r s1 s2 H1 IH1 H2 IH2]; simpl;
      try reflexivity; try discriminate.
    + apply app_eq_nil in E as [-> ->]. rewrite IH1, IH2; reflexivity.
    + rewrite IH; auto.
    + rewrite IH; auto. apply orb_true_r.
Qed.

Lemma Matches_deriv (c : N) (r : re) (s : jsstring) :
  Matches (deriv c r) s -> Matches r (c :: s).
Proof.
  revert s.
  induction r as [|p|r1 IH1 r2 IH2|r1 IH1 r2 IH2|r IH|]; simpl; intros s H.
  - inversion H.
  - destruct (p c) eqn:Hp; inversion H; subst. constructor. exact Hp.
  - destruct (nullable r1) eqn:Hn.
    + inversion H as [| | |? ? ? HL|? ? ? HR| |]; subst.
      * inversion HL as [| |? ? s1 s2 Ha Hb| | | |]; subst.
        change (c :: s1 ++ s2) with ((c :: s1) ++ s2).
        constructor; auto.
      * change (c :: s) with ([] ++ c :: s).
        constructor; [apply nullable_spec, Hn | auto].
    + inversion H as [| |? ? s1 s2 Ha Hb| | | |]; subst.
      change (c :: s1 ++ s2) with ((c :: s1) ++ s2).
      constructor; auto.
  - inversion H; subst; [apply MAltL | apply MAltR]; auto.
  - inversion H as [| |? ? s1 s2 Ha Hb| | | |]; subst.
    change (c :: s1 ++ s2) with ((c :: s1) ++ s2).
    constructor; auto.
  - inversion H.
Qed.

Lemma deriv_Matches (c : N) (r : re) (s : jsstring) :
  Matches r (c :: s) -> Matches (deriv c r) s.
Proof.
  intros H. remember (c :: s) as cs eqn:E. revert s E.
  induction H as [|p c0 Hp|r1 r2 s1 s2 H1 IH1 H2 IH2|r1 r2 s0 H IH
                 |r1 r2 s0 H IH|r|r s1 s2 H1 IH1 H2 IH2];
    intros s E; simpl; try discriminate.
  - injection E as -> <-. rewrite Hp. constructor.
  - destruct s1 as [|x s1'].
    + simpl in E. subst s2.
      rewrite (proj2 (nullable_spec r1) H1). apply MAltR. auto.
    + injection E as -> <-.
      destruct (nullable r1); [apply MAltL|]; constructor; auto.
  - apply MAltL. auto.
  - apply MAltR. auto.
  - destruct s1 as [|x s1'].
    + simpl in E. auto.
    + injection E as -> <-. constructor; auto.
Qed.

(** [test] decides the language of the expression. *)
Lemma test_spec (s : jsstring) :
  forall r, test r s = true <-> Matches r s.
Proof.
  induction s as [|c s IH]; intros r; simpl.
  - apply nullable_spec.
  - rewrite IH. split; [apply Matches_deriv | apply deriv_Matches].
Qed.

Lemma Matches_Class (p : N -> bool) (s : jsstring) :
  Matches (Class p) s <-> exists c, s = [c] /\ p c = true.
Proof.
  split.
  - intros H. inversion H; subst. eauto.
  - intros (c & -> & H). constructor. exact H.
Qed.

Lemma Matches_Cat (r1 r2 : re) (s : jsstring) :
  Matches (Cat r1 r2) s <->
  exists s1 s2, s = s1 ++ s2 /\ Matches r1 s1 /\ Matches r2 s2.
Proof.
  split.
  - intros H. inversion H; subst. eauto.
  - intros (s1 & s2 & -> & H1 & H2). constructor; assumption.
Qed.

Lemma Matches_Star_Class (p : N -> bool) (s : jsstring) :
  Matches (Star (Class p)) s <-> forallb p s = true.
Proof.
  split.
  - intros H. remember (Star (Class p)) as r eqn:E.
    induction H as [|q c Hq|r1 r2 s1 s2 H1 IH1 H2 IH2|r1 r2 s0 H IH
                   |r1 r2 s0 H IH|r|r s1 s2 H1 IH1 H2 IH2];
      try discriminate; [reflexivity|].
    injection E as ->. inversion H1; subst. simpl.
    rewrite IH2 by reflexivity.
    match goal with Hc : p _ = true |- _ => rewrite Hc end. reflexivity.
  - induction s as [|c s IH]; simpl; intros H; [constructor|].
    apply andb_true_iff in H as [Hc Hs].
    change (c :: s) with ([c] ++ s).
    constructor; [constructor; exact Hc | auto].
Qed.

(** [[class]+] matches the texts that are not empty and made of the
    class. *)
Lemma Matches_Plus_Class (p : N -> bool) (s : jsstring) :
  Matches (Plus (Class p)) s <-> s <> [] /\ forallb p s = true.
Proof.
  unfold Plus. rewrite Matches_Cat. split.
  - intros (s1 & s2 & -> & H1 & H2).
    apply Matches_Class in H1 as (c & -> & Hc).
    apply Matches_Star_Class in H2. simpl. rewrite Hc, H2.
    split; [discriminate | reflexivity].
  - intros [Hn H]. destruct s as [|c s]; [congruence|].
    simpl in H. apply andb_true_iff in H as [Hc Hs].
    exists [c], s. repeat split.
    + apply Matches_Class. eauto.
    + apply Matches_Star_Class. exact Hs.
Qed.

End RegexFacts.

(** ** The sign-up form *)

Section SignUpProperties.
Import JS UI Regex SignUp.
Local Open Scope Z_scope.

Lemma notSpaceNorAt_spec (c : N) :
  notSpaceNorAt c = true <-> isWhiteSpace c = false /\ c <> 64%N.
Proof.
  unfold notSpaceNorAt. rewrite negb_true_iff, orb_false_iff, N.eqb_neq.
  reflexivity.
Qed.

Lemma at_free_count (s : jsstring) :
  forallb notSpaceNorAt s = true -> count_occ N.eq_dec s 64%N = 0%nat.
Proof.
  induction s as [|c s IH]; simpl; [reflexivity|].
  intros H. apply andb_true_iff in H as [Hc Hs].
  apply notSpaceNorAt_spec in Hc as [_ Hc].
  destruct (N.eq_dec c 64); [congruence | auto].
Qed.

Lemma at_free_clean (s : jsstring) :
  forallb notSpaceNorAt s = true ->
  forallb (fun c => negb (isWhiteSpace c)) s = true.
Proof.
  intros H. rewrite forallb_forall in *. intros c Hc.
  apply H, notSpaceNorAt_spec in Hc as [-> _]. reflexivity.
Qed.

Lemma emailRegex_parts (s : jsstring) :
  test emailRegex s = true <->
  exists a b c,
    s = a ++ [64%N] ++ b ++ [46%N] ++ c
    /\ a <> [] /\ b <> [] /\ c <> []
    /\ forallb notSpaceNorAt a = true
    /\ forallb notSpaceNorAt b = true
    /\ forallb notSpaceNorAt c = true.
Proof.
  rewrite test_spec. unfold emailRegex. split.
  - intros H.
    apply Matches_Cat in H as (a & s1 & -> & Ha & H).
    apply Matches_Cat in H as (x & s2 & -> & Hx & H).
    apply Matches_Cat in H as (b & s3 & -> & Hb & H).
    apply Matches_Cat in H as (y & c & -> & Hy & Hc).
    apply Matches_Class in Hx as (x0 & -> & Hx). apply N.eqb_eq in Hx.
    apply Matches_Class in Hy as (y0 & -> & Hy). apply N.eqb_eq in Hy.
    apply Matches_Plus_Class in Ha as [Ha1 Ha2].
    apply Matches_Plus_Class in Hb as [Hb1 Hb2].
    apply Matches_Plus_Class in Hc as [Hc1 Hc2].
    subst. exists a, b, c. repeat split; assumption.
  - intros (a & b & c & -> & Ha & Hb & Hc & Pa & Pb & Pc).
    apply Matches_Cat. exists a, ([64%N] ++ b ++ [46%N] ++ c).
    split; [reflexivity|]. split; [apply Matches_Plus_Class; auto|].
    apply Matches_Cat. exists [64%N], (b ++ [46%N] ++ c).
    split; [reflexivity|].
    split; [apply Matches_Class; exists 64%N; split; reflexivity|].
    apply Matches_Cat. exists b, ([46%N] ++ c).
    split; [reflexivity|]. split; [apply Matches_Plus_Class; auto|].
    apply Matches_Cat. exists [46%N], c.
    split; [reflexivity|].
    split; [apply Matches_Class; exists 46%N; split; reflexivity|].
    apply Matches_Plus_Class; auto.
Qed.

(** The email test of the sign-up form accepts exactly the texts of the
    shape [local@domain.tail] whose three parts are not empty and hold
    neither white space nor [@] (dots are allowed in all three).  So an
    accepted email holds no white space and exactly one [@], and [trim]
    leaves it as it is. *)
Theorem email_test_accepts_local_at_domain_dot_tail :
  forall s : jsstring,
    (test emailRegex s = true <->
     exists a b c,
       s = a ++ [64%N] ++ b ++ [46%N] ++ c
       /\ a <> [] /\ b <> [] /\ c <> []
       /\ forallb notSpaceNorAt a = true
       /\ forallb notSpaceNorAt b = true
       /\ forallb notSpaceNorAt c = true)
    /\ (test emailRegex s = true ->
        forallb (fun c => negb (isWhiteSpace c)) s = true
        /\ count_occ N.eq_dec s 64%N = 1%nat
        /\ trim s = s
        /\ (5 <= List.length s)%nat).
Proof.
  intros s. split; [apply emailRegex_parts|].
  intros H. apply emailRegex_parts in H
    as (a & b & c & -> & Ha & Hb & Hc & Pa & Pb & Pc).
  assert (forallb (fun c => negb (isWhiteSpace c))
            (a ++ [64%N] ++ b ++ [46%N] ++ c) = true) as Hclean.
  { rewrite !forallb_app, (at_free_clean _ Pa), (at_free_clean _ Pb),
      (at_free_clean _ Pc). reflexivity. }
  split; [exact Hclean|]. split; [|split].
  - rewrite !count_occ_app, (at_free_count _ Pa), (at_free_count _ Pb),
      (at_free_count _ Pc). reflexivity.
  - apply trim_id, Hclean.
  - rewrite !length_app. cbn [List.length].
    destruct a; [congruence|]. destruct b; [congruence|].
    destruct c; [congruence|]. cbn [List.length]. lia.
Qed.

Lemma validate_None (st : State) :
  validate st = None <->
  firstName st <> [] /\ lastName st <> []
  /\ includes (email st) (lit " ") = false
  /\ includes (password st) (lit " ") = false
  /\ test emailRegex (email st) = true
  /\ (8 <= List.length (password st))%nat.
Proof.
  unfold validate. split.
  - destruct (firstName st) as [|f1 f]; [discriminate|].
    destruct (lastName st) as [|l1 l]; [discriminate|].
    destruct (email st) as [|e1 e]; [discriminate|].
    destruct (password st) as [|p1 p]; [discriminate|].
    cbn [truthy negb orb].
    destruct (includes (e1 :: e) (lit " ")); [discriminate|].
    destruct (includes (p1 :: p) (lit " ")); [discriminate|]. cbn [orb].
    destruct (test emailRegex (e1 :: e)); [|discriminate]. cbn [negb].
    destruct (Z.of_nat (List.length (p1 :: p)) <? 8) eqn:E; [discriminate|].
    apply Z.ltb_ge in E. intros _.
    repeat split; try discriminate. lia.
  - intros (Hf & Hl & He & Hp & Hr & Hn).
    destruct (firstName st) as [|f1 f]; [congruence|].
    destruct (lastName st) as [|l1 l]; [congruence|].
    destruct (email st) as [|e1 e]; [discriminate Hr|].
    destruct (password st) as [|p1 p]; [simpl in Hn; lia|].
    cbn [truthy negb orb]. rewrite He, Hp, Hr. cbn [orb negb].
    destruct (Z.of_nat (List.length (p1 :: p)) <? 8) eqn:E; [|reflexivity].
    apply Z.ltb_lt in E. lia.
Qed.

Lemma handleSubmit_try_first (w : World) (st : State) :
  exists rest,
    fst (handleSubmit_try w st)
    = Call (Create (trim (firstName st)) (trim (lastName st))
              (trim (email st)) (password st)) :: rest.
Proof.
  unfold handleSubmit_try.
  destruct (create w _ _ _ _); [|cbn; eauto].
  destruct (prepareEmailAddressVerification w _); cbn; eauto.
Qed.

(** [handleSubmit] of the sign-up form calls the provider exactly when
    the SDK is loaded and the four tests pass: both names, the email and
    the password filled, no space in the email or the password, an email
    of the accepted shape, and a password of eight characters or more.
    Its first effect is then [signUp.create] with the names and the
    email trimmed and the password untouched. *)
Theorem sign_up_calls_after_validation_only :
  forall (isLoaded : bool) (w : World) (st : State),
    (validate st = None <->
     firstName st <> [] /\ lastName st <> []
     /\ includes (email st) (lit " ") = false
     /\ includes (password st) (lit " ") = false
     /\ test emailRegex (email st) = true
     /\ (8 <= List.length (password st))%nat)
    /\ (filter isCall (snd (handleSubmit isLoaded w st)) <> [] <->
        isLoaded = true /\ validate st = None)
    /\ (filter isCall (snd (handleSubmit isLoaded w st)) <> [] ->
        exists rest,
          snd (handleSubmit isLoaded w st)
          = Call (Create (trim (firstName st)) (trim (lastName st))
                    (trim (email st)) (password st)) :: rest).
Proof.
  intros isLoaded w st. split; [apply validate_None|].
  destruct (handleSubmit_try_first w st) as (rest & Hr).
  unfold handleSubmit.
  destruct isLoaded; cbn [negb].
  - destruct (validate st) as [m|].
    + cbn. split; [split|]; try (intros H; exfalso; apply H; reflexivity).
      intros [_ H]. discriminate H.
    + destruct (handleSubmit_try w st) as [effects [u|err]];
        cbn [fst snd] in *; subst effects; cbn; split; try split; intros;
        try (repeat split; fail); try discriminate; eauto.
  - cbn. split; [split|]; try (intros H; exfalso; apply H; reflexivity).
    intros [H _]. discriminate H.
Qed.

(** A password shorter than eight characters, on a form that is filled
    and whose email is accepted, stops [handleSubmit] at the alert
    "Password must be at least 8 characters long", with the state
    unchanged and no call into the provider. *)
Theorem sign_up_rejects_short_password :
  forall (w : World) (st : State),
    firstName st <> [] -> lastName st <> [] -> password st <> [] ->
    includes (email st) (lit " ") = false ->
    includes (password st) (lit " ") = false ->
    test emailRegex (email st) = true ->
    (List.length (password st) < 8)%nat ->
    handleSubmit true w st
    = (st, [Alert (lit "Error")
              (lit "Password must be at least 8 characters long") []]).
Proof.
  intros w st Hf Hl Hp He Hs Hr Hn. unfold handleSubmit, validate.
  cbn [negb].
  destruct (firstName st) as [|f1 f]; [congruence|].
  destruct (lastName st) as [|l1 l]; [congruence|].
  destruct (email st) as [|e1 e]; [discriminate Hr|].
  destruct (password st) as [|p1 p] eqn:Ep; [congruence|].
  cbn [truthy negb orb]. rewrite He, Hs, Hr. cbn [orb negb].
  destruct (Z.of_nat (List.length (p1 :: p)) <? 8) eqn:E; [reflexivity|].
  apply Z.ltb_ge in E. lia.
Qed.

(** A submission that passes the tests clears the loading flag and ends
    in one of three ways: the account is created, the verification email
    is prepared, and the alert offers the way to the verification screen
    with the trimmed email as parameter; or [signUp.create] is rejected,
    the verification is never prepared, and the one alert of failure is
    shown; or the preparation is rejected after the account was created,
    with the same alert. *)
Theorem sign_up_creates_then_prepares :
  forall (w : World) (st : State),
    validate st = None ->
    isLoading (fst (handleSubmit true w st)) = false
    /\ (snd (handleSubmit true w st)
        = [Call (Create (trim (firstName st)) (trim (lastName st))
                   (trim (email st)) (password st));
           Call (PrepareEmailAddressVerification (lit "email_code"));
           Alert (lit "Verification Email Sent! " ++ [9989%N])
             (lit "We've sent a verification code to " ++ email st
              ++ lit ". Please check your inbox and spam folder.")
             [(lit "Enter Verification Code",
               Some (Push (lit "/verify-email")
                       [(lit "email", trim (email st))]))]]
        /\ create w (trim (firstName st)) (trim (lastName st))
             (trim (email st)) (password st) = Return tt
        /\ prepareEmailAddressVerification w (lit "email_code") = Return tt
        \/ (exists err,
              create w (trim (firstName st)) (trim (lastName st))
                (trim (email st)) (password st) = Throw err
              /\ snd (handleSubmit true w st)
                 = [Call (Create (trim (firstName st)) (trim (lastName st))
                            (trim (email st)) (password st));
                    Alert (lit "Sign Up Failed " ++ [10060%N])
                      (signUpErrorMessage err) [(lit "OK", None)]])
        \/ (exists err,
              prepareEmailAddressVerification w (lit "email_code")
                = Throw err
              /\ snd (handleSubmit true w st)
                 = [Call (Create (trim (firstName st)) (trim (lastName st))
                            (trim (email st)) (password st));
                    Call (PrepareEmailAddressVerification (lit "email_code"));
                    Alert (lit "Sign Up Failed " ++ [10060%N])
                      (signUpErrorMessage err) [(lit "OK", None)]])).
Proof.
  intros w st Hv. unfold handleSubmit. cbn [negb]. rewrite Hv.
  unfold handleSubmit_try.
  destruct (create w (trim (firstName st)) (trim (lastName st))
              (trim (email st)) (password st)) as [[]|err].
  - destruct (prepareEmailAddressVerification w (lit "email_code"))
      as [[]|err].
    + split; [reflexivity|]. left. repeat split.
    + split; [reflexivity|]. right. right. exists err. split; reflexivity.
  - split; [reflexivity|]. right. left. exists err. split; reflexivity.
Qed.

(** The test for the required fields looks at the names as typed, and
    the provider is given them trimmed: a first name made of spaces only
    passes the test and is sent as the empty text. *)
Theorem blank_first_name_is_sent_empty :
  forall (w : World) (st : State),
    validate st = None ->
    forallb isWhiteSpace (firstName st) = true ->
    firstName st <> []
    /\ exists rest,
        snd (handleSubmit true w st)
        = Call (Create [] (trim (lastName st)) (trim (email st))
                  (password st)) :: rest.
Proof.
  intros w st Hv Hb. split; [apply validate_None in Hv; apply Hv|].
  destruct (handleSubmit_try_first w st) as (rest & Hr).
  rewrite (proj2 (trim_nil_iff _) Hb) in Hr.
  unfold handleSubmit. cbn [negb]. rewrite Hv.
  destruct (handleSubmit_try w st) as [effects [u|err]];
    cbn [fst snd] in *; subst effects; cbn [app]; eauto.
Qed.

End SignUpProperties.

(** ** Instances *)

Lemma unmapped_status_is_classified_by_its_body_witness :
  snd (Chat.fetchAIResponse None
         (Sample.world
            (JS.Return (Sample.failed 404 (JS.lit "upstream timeout"))))
         0 (JS.lit "hi"))
  = JS.Return (JS.Str Chat.replyTimeout).
Proof.
  refine (proj2 (@unmapped_status_is_classified_by_its_body None
                   (Sample.world
                      (JS.Return
                         (Sample.failed 404 (JS.lit "upstream timeout"))))
                   0 (JS.lit "hi")
                   (Sample.failed 404 (JS.lit "upstream timeout"))
                   (JS.lit "upstream timeout")
                   eq_refl eq_refl eq_refl _ _ eq_refl)
            (or_introl eq_refl));
    discriminate.
Defined.

Lemma send_guard_rejects_witness :
  Chat.handleSendMessage None
    (Sample.world (JS.Return (Sample.okJson (JS.Obj []))))
    (Sample.clock 1000 1400) (Sample.typed "   ")
  = (Sample.typed "   ", []).
Proof.
  apply (@send_guard_rejects None). left. reflexivity.
Defined.

Lemma one_send_in_flight_witness :
  ChatFlow.step None
    (ChatFlow.run None (ChatFlow.initialScreen None 0)
       [ChatFlow.ChangeText (JS.lit "hi"); ChatFlow.PressSend 1 1 1])
    (ChatFlow.PressSend 2 2 2)
  = ChatFlow.run None (ChatFlow.initialScreen None 0)
      [ChatFlow.ChangeText (JS.lit "hi"); ChatFlow.PressSend 1 1 1]
  /\ ChatFlow.step None
       (ChatFlow.run None (ChatFlow.initialScreen None 0)
          [ChatFlow.ChangeText (JS.lit "hi"); ChatFlow.PressSend 1 1 1])
       (ChatFlow.ChangeText (JS.lit "more"))
     = ChatFlow.run None (ChatFlow.initialScreen None 0)
         [ChatFlow.ChangeText (JS.lit "hi"); ChatFlow.PressSend 1 1 1].
Proof.
  apply (@one_send_in_flight None 0
           [ChatFlow.ChangeText (JS.lit "hi"); ChatFlow.PressSend 1 1 1]
           2 2 2 (JS.lit "more")).
  discriminate.
Defined.

Lemma press_then_settle_is_handleSendMessage_witness :
  ChatFlow.ui
    (ChatFlow.step None
       (ChatFlow.step None
          (ChatFlow.step None (ChatFlow.initialScreen None 0)
             (ChatFlow.ChangeText (JS.lit "hi")))
          (ChatFlow.PressSend 1000 1000 1000))
       (ChatFlow.Settle
          (Sample.world (JS.Return (Sample.failed 429 []))) 1400 1400))
  = fst (Chat.handleSendMessage None
           (Sample.world (JS.Return (Sample.failed 429 [])))
           (Sample.clock 1000 1400) (Sample.typed "hi")).
Proof.
  exact (@press_then_settle_is_handleSendMessage None
           (Sample.world (JS.Return (Sample.failed 429 [])))
           (Sample.clock 1000 1400)
           (ChatFlow.step None (ChatFlow.initialScreen None 0)
              (ChatFlow.ChangeText (JS.lit "hi")))
           eq_refl).
Defined.

Lemma clear_in_flight_keeps_the_reply_witness :
  exists a,
    Chat.messages
      (ChatFlow.ui
         (ChatFlow.run None
            (ChatFlow.step None (ChatFlow.initialScreen None 0)
               (ChatFlow.ChangeText (JS.lit "hi")))
            [ChatFlow.PressSend 1000 1000 1000; ChatFlow.ConfirmClear 1200;
             ChatFlow.Settle
               (Sample.world (JS.Return (Sample.failed 429 []))) 1400 1400]))
    = [Chat.greeting None 1200; a]
    /\ Chat.isUser a = false.
Proof.
  destruct (@clear_in_flight_keeps_the_reply None
              (Sample.world (JS.Return (Sample.failed 429 [])))
              1000 1000 1000 1200 1400 1400
              (ChatFlow.step None (ChatFlow.initialScreen None 0)
                 (ChatFlow.ChangeText (JS.lit "hi")))
              eq_refl eq_refl) as (a & H1 & H2 & _).
  exists a. split; assumption.
Defined.

Lemma verify_submits_the_typed_code_witness :
  exists rest,
    snd (VerifyEmail.handleVerify SampleForms.waiting SampleForms.completes
           (VerifyEmail.run VerifyEmail.initialState
              [VerifyEmail.ChangeText (JS.lit "12 34-56")]))
    = UI.Call (UI.AttemptEmailAddressVerification (JS.lit "123456")) :: rest.
Proof.
  exact (proj1 (@verify_submits_the_typed_code
                  [VerifyEmail.ChangeText (JS.lit "12 34-56")]
                  SampleForms.waiting SampleForms.completes
                  SampleForms.waitingSignUp eq_refl eq_refl eq_refl)
           eq_refl).
Defined.

Lemma verification_ends_verified_or_failed_witness :
  VerifyEmail.isLoading
    (fst (VerifyEmail.handleVerify SampleForms.waiting SampleForms.completes
            (VerifyEmail.run VerifyEmail.initialState
               [VerifyEmail.ChangeText (JS.lit "123456")])))
  = false.
Proof.
  refine (proj1 (@verification_ends_verified_or_failed
                   SampleForms.waiting SampleForms.completes
                   (VerifyEmail.run VerifyEmail.initialState
                      [VerifyEmail.ChangeText (JS.lit "123456")])
                   SampleForms.waitingSignUp eq_refl eq_refl eq_refl _
                   eq_refl)).
  discriminate.
Defined.

Lemma failed_resend_can_be_retried_witness :
  VerifyEmail.resendDisabled
    (VerifyEmail.step
       (VerifyEmail.run VerifyEmail.initialState
          [VerifyEmail.PressResend SampleForms.waiting])
       (VerifyEmail.ResendSettles (JS.Throw UI.OtherThrown)))
  = false.
Proof.
  exact (proj1 (@failed_resend_can_be_retried
                  [VerifyEmail.PressResend SampleForms.waiting]
                  UI.OtherThrown eq_refl)).
Defined.

Lemma form_handlers_skip_the_page_tests_witness :
  VerifyEmail.handleResendCode_start SampleForms.waiting
    VerifyEmail.initialState
  = (VerifyEmail.initialState, [])
  \/ VerifyEmail.handleResendCode_start SampleForms.waiting
       VerifyEmail.initialState
     = (VerifyEmail.setResend true 0 VerifyEmail.initialState,
        [UI.Call (UI.PrepareEmailAddressVerification (JS.lit "email_code"))]).
Proof.
  exact (proj1 (@form_handlers_skip_the_page_tests SampleForms.waiting
                  VerifyEmail.initialState eq_refl)).
Defined.

Lemma enabled_button_reaches_the_provider_witness :
  exists rest,
    snd (SignIn.handleSubmit (SignIn.mkHook true true) SampleForms.signsIn
           (SignInForm.run SignInForm.initialState
              [SignInForm.ChangeEmail (JS.lit "a b@x.com");
               SignInForm.ChangePassword (JS.lit "secret")]))
    = UI.Call (UI.SignInCreate (JS.lit "ab@x.com") (JS.lit "secret")) :: rest.
Proof.
  exact (proj2 (proj2 (@enabled_button_reaches_the_provider
                         [SignInForm.ChangeEmail (JS.lit "a b@x.com");
                          SignInForm.ChangePassword (JS.lit "secret")]
                         (SignIn.mkHook true true) SampleForms.signsIn
                         eq_refl eq_refl eq_refl))).
Defined.

Lemma sign_in_ends_in_tabs_or_alert_witness :
  SignIn.isLoading
    (fst (SignIn.handleSubmit (SignIn.mkHook true true) SampleForms.signsIn
            (SignIn.mkState (JS.lit "ab@x.com") (JS.lit "secret")
               false false)))
  = false.
Proof.
  refine (proj1 (@sign_in_ends_in_tabs_or_alert
                   (SignIn.mkHook true true) SampleForms.signsIn
                   (SignIn.mkState (JS.lit "ab@x.com") (JS.lit "secret")
                      false false)
                   eq_refl eq_refl _ _ eq_refl eq_refl));
    discriminate.
Defined.

Lemma oauth_cancellation_is_silent_witness :
  OAuth.handleGoogleSignIn true SampleForms.closed
  = (Some false,
     [OAuth.Call (UI.StartOAuthFlow (JS.lit "oauth_google"))]).
Proof.
  exact (proj1 (proj2 (@oauth_cancellation_is_silent OAuth.googleSignIn
                         SampleForms.closed)
                  (OAuth.Error (JS.lit "OAuth flow was cancelled"))
                  (JS.lit "OAuth flow was cancelled")
                  eq_refl eq_refl eq_refl)).
Defined.

Lemma oauth_ends_in_tabs_silence_or_alert_witness :
  fst (OAuth.handle OAuth.microsoftSignUp true SampleForms.closed)
  = Some false.
Proof.
  exact (proj1 (@oauth_ends_in_tabs_silence_or_alert OAuth.microsoftSignUp
                  SampleForms.closed
                  (or_intror (or_intror (or_intror (or_introl eq_refl)))))).
Defined.

Lemma sign_up_rejects_short_password_witness :
  SignUp.handleSubmit true SampleForms.signsUp
    (SampleForms.signUpForm "Ann" "short1")
  = (SampleForms.signUpForm "Ann" "short1",
     [SignUp.Alert (JS.lit "Error")
        (JS.lit "Password must be at least 8 characters long") []]).
Proof.
  refine (@sign_up_rejects_short_password SampleForms.signsUp
            (SampleForms.signUpForm "Ann" "short1")
            _ _ _ eq_refl eq_refl eq_refl _);
    try discriminate.
  cbn. lia.
Defined.

Lemma sign_up_creates_then_prepares_witness :
  SignUp.isLoading
    (fst (SignUp.handleSubmit true SampleForms.signsUp
            (SampleForms.signUpForm "Ann" "long-enough-1")))
  = false.
Proof.
  exact (proj1 (@sign_up_creates_then_prepares SampleForms.signsUp
                  (SampleForms.signUpForm "Ann" "long-enough-1") eq_refl)).
Defined.

Lemma blank_first_name_is_sent_empty_witness :
  exists rest,
    snd (SignUp.handleSubmit true SampleForms.signsUp
           (SampleForms.signUpForm "  " "long-enough-1"))
    = SignUp.Call (SignUp.Create [] (JS.lit "Lee") (JS.lit "ann@fimpay.com")
                     (JS.lit "long-enough-1")) :: rest.
Proof.
  exact (proj2 (@blank_first_name_is_sent_empty SampleForms.signsUp
                  (SampleForms.signUpForm "  " "long-enough-1")
                  eq_refl eq_refl)).
Defined.

Lemma spaced_sends_have_distinct_ids_witness :
  NoDup
    (map Chat.id
       (Chat.messages
          (Chat.run None (Chat.initialState None 0)
             [Chat.ChangeText (JS.lit "a");
              Chat.PressSend
                (Sample.world (JS.Return (Sample.okJson (JS.Obj []))))
                (Sample.clock 999 1000);
              Chat.ChangeText (JS.lit "b");
              Chat.PressSend
                (Sample.world (JS.Return (Sample.okJson (JS.Obj []))))
                (Sample.clock 1002 1003)]))).
Proof.
  apply (@spaced_sends_have_distinct_ids None 0).
  cbn. repeat split; lia.
Defined.

Lemma handleResendCode_tests_the_counter_only_witness :
  snd (VerifyEmail.handleResendCode_start SampleForms.waiting
         (VerifyEmail.setResend true 0 VerifyEmail.initialState))
  = [UI.Call (UI.PrepareEmailAddressVerification (JS.lit "email_code"))].
Proof.
  apply handleResendCode_tests_the_counter_only.
  - reflexivity.
  - exists SampleForms.waitingSignUp. split; [reflexivity | discriminate].
  - cbn. lia.
Defined.
